(** * MCP Jira connector (Jira_connector.py): model and verified properties

    A shallow embedding of the [Tools] class of [Jira_connector.py]: the
    credential resolver, the header and JSON-RPC builders, the session
    handshake, the tool invoker, the discovery operation, the per-tool
    operations and the generic pass-through.

    Modelling conventions.
    - A Python [str] is a Rocq [string] holding its UTF-8 bytes.
    - JSON-like Python values are the type [pyval]; floats are outside the
      model.  A [dict] is an association list in insertion order with string
      keys.
    - [requests.post], [json.loads], the pydantic constructor of [UserValves]
      and [repr] of containers are library code: they are the fields of an
      environment record [Env].
    - An operation is a function from the list of requests posted so far to
      a result (a value or a raised exception) and the extended list. *)

From Stdlib Require Import ZArith List String Ascii Bool Lia DecimalString.
Import ListNotations.

Local Open Scope string_scope.
Local Open Scope Z_scope.

(** ** Python strings *)

Module PyString.

Definition byte_val (a : ascii) : Z := Z.of_N (N_of_ascii a).

Definition chr (n : Z) : ascii := ascii_of_N (Z.to_N n).

Definition bytes (l : list Z) : string := string_of_list_ascii (map chr l).

Definition str_of_Z (n : Z) : string := NilZero.string_of_int (Z.to_int n).

Definition rev_string (s : string) : string :=
  string_of_list_ascii (rev (list_ascii_of_string s)).

(** [s.startswith(p)] *)
Definition startswith (s p : string) : bool := String.prefix p s.

(** [sub in s] on two strings *)
Fixpoint contains (s sub : string) : bool :=
  if String.prefix sub s then true
  else match s with
       | EmptyString => false
       | String _ rest => contains rest sub
       end.

(** [s.split(sep)] for a one-character separator: never returns the empty list *)
Fixpoint split (sep : ascii) (s : string) : list string :=
  match s with
  | EmptyString => [EmptyString]
  | String a rest =>
      if Ascii.eqb a sep then EmptyString :: split sep rest
      else match split sep rest with
           | [] => [String a EmptyString]
           | piece :: pieces => String a piece :: pieces
           end
  end.

(** The UTF-8 encodings of the code points for which [str.isspace] holds:
    U+0009..U+000D, U+001C..U+0020, U+0085, U+00A0, U+1680, U+2000..U+200A,
    U+2028, U+2029, U+202F, U+205F, U+3000. *)
Definition whitespace : list string :=
  map (fun b => bytes [b]) [9; 10; 11; 12; 13; 28; 29; 30; 31; 32]
  ++ [bytes [194; 133]; bytes [194; 160]; bytes [225; 154; 128]]
  ++ map (fun b => bytes [226; 128; b])
         [128; 129; 130; 131; 132; 133; 134; 135; 136; 137; 138; 168; 169; 175]
  ++ [bytes [226; 129; 159]; bytes [227; 128; 128]].

Fixpoint drop_prefix (p s : string) : option string :=
  match p, s with
  | EmptyString, _ => Some s
  | String a p', String b s' => if Ascii.eqb a b then drop_prefix p' s' else None
  | String _ _, EmptyString => None
  end.

Fixpoint drop_first (ps : list string) (s : string) : option string :=
  match ps with
  | [] => None
  | p :: ps' =>
      match drop_prefix p s with
      | Some rest => Some rest
      | None => drop_first ps' s
      end
  end.

Fixpoint lstrip_with (fuel : nat) (ws : list string) (s : string) : string :=
  match fuel with
  | O => s
  | S fuel' =>
      match drop_first ws s with
      | Some rest => lstrip_with fuel' ws rest
      | None => s
      end
  end.

Definition lstrip (s : string) : string :=
  lstrip_with (String.length s) whitespace s.

Definition rstrip (s : string) : string :=
  rev_string
    (lstrip_with (String.length s) (map rev_string whitespace) (rev_string s)).

(** [s.strip()] *)
Definition strip (s : string) : string := rstrip (lstrip s).

(** Decoding: the code points of a string and the bytes of each. *)
Fixpoint utf8_chars_from (s : string) (pending : nat) (cp : Z) (chunk : string)
  : list (Z * string) :=
  match s with
  | EmptyString =>
      match pending with
      | O => []
      | S _ => [(cp, chunk)]
      end
  | String a rest =>
      let b := byte_val a in
      match pending with
      | S k =>
          let cp' := Z.lor (Z.shiftl cp 6) (Z.land b 63) in
          let chunk' := chunk ++ String a EmptyString in
          match k with
          | O => (cp', chunk') :: utf8_chars_from rest O 0 EmptyString
          | S _ => utf8_chars_from rest k cp' chunk'
          end
      | O =>
          let one := String a EmptyString in
          if b <? 192 then (b, one) :: utf8_chars_from rest O 0 EmptyString
          else if b <? 224 then utf8_chars_from rest 1%nat (Z.land b 31) one
          else if b <? 240 then utf8_chars_from rest 2%nat (Z.land b 15) one
          else utf8_chars_from rest 3%nat (Z.land b 7) one
      end
  end.

Definition utf8_chars (s : string) : list (Z * string) :=
  utf8_chars_from s O 0 EmptyString.

Definition code_points (s : string) : list Z := map fst (utf8_chars s).

Definition hex_digit (n : Z) : ascii :=
  if n <? 10 then chr (48 + n) else chr (87 + n).

(** ['{0:04x}'.format(n)] for [0 <= n < 65536] *)
Definition hex4 (n : Z) : string :=
  string_of_list_ascii
    [hex_digit (Z.shiftr n 12 mod 16); hex_digit (Z.shiftr n 8 mod 16);
     hex_digit (Z.shiftr n 4 mod 16); hex_digit (n mod 16)].

(** [sep.join(pieces)] on strings *)
Fixpoint join (sep : string) (pieces : list string) : string :=
  match pieces with
  | [] => EmptyString
  | [p] => p
  | p :: rest => p ++ sep ++ join sep rest
  end.

Definition repeat_string (s : string) (n : nat) : string :=
  String.concat EmptyString (repeat s n).

Definition newline : string := bytes [10].

End PyString.

Import PyString.

(** ** Python values, exceptions and results *)

Local Set Warnings "-register-all".

Inductive pyval :=
| PNone
| PBool (b : bool)
| PInt (n : Z)
| PStr (s : string)
| PList (items : list pyval)
| PDict (entries : list (string * pyval)).

Definition dict := list (string * pyval).

(** The exception classes the code can meet.  [Timeout] is
    [requests.exceptions.Timeout] with its subclasses, [RequestException]
    the other errors of [requests], [PlainException] a direct
    [raise Exception(..)], and [KeyboardInterrupt] stands for the classes
    that derive from [BaseException] only. *)
Inductive exn_class :=
| Timeout
| RequestException
| JSONDecodeError
| AttributeError
| TypeError
| KeyError
| ValidationError
| RecursionError
| PlainException
| KeyboardInterrupt.

Record exn := mkExn { exn_class_of : exn_class; exn_msg : string }.

(** [isinstance(e, Exception)] *)
Definition is_Exception (e : exn) : bool :=
  match exn_class_of e with
  | KeyboardInterrupt => false
  | _ => true
  end.

(** [isinstance(e, requests.exceptions.Timeout)] *)
Definition is_Timeout (e : exn) : bool :=
  match exn_class_of e with
  | Timeout => true
  | _ => false
  end.

(** [isinstance(e, json.JSONDecodeError)] *)
Definition is_JSONDecodeError (e : exn) : bool :=
  match exn_class_of e with
  | JSONDecodeError => true
  | _ => false
  end.

Inductive result (A : Type) :=
| Ok (a : A)
| Raise (e : exn).
Arguments Ok {A} a.
Arguments Raise {A} e.

Definition rbind {A B} (r : result A) (k : A -> result B) : result B :=
  match r with
  | Ok a => k a
  | Raise e => Raise e
  end.

Module PyValue.

Definition type_name (v : pyval) : string :=
  match v with
  | PNone => "NoneType"
  | PBool _ => "bool"
  | PInt _ => "int"
  | PStr _ => "str"
  | PList _ => "list"
  | PDict _ => "dict"
  end.

(** [bool(v)] *)
Definition truthy (v : pyval) : bool :=
  match v with
  | PNone => false
  | PBool b => b
  | PInt n => negb (n =? 0)
  | PStr s => negb (String.eqb s EmptyString)
  | PList l => match l with [] => false | _ => true end
  | PDict d => match d with [] => false | _ => true end
  end.

Fixpoint dict_lookup {V : Type} (k : string) (d : list (string * V)) : option V :=
  match d with
  | [] => None
  | (k', v) :: d' => if String.eqb k k' then Some v else dict_lookup k d'
  end.

(** [d[k] = v]: an existing key keeps its position *)
Fixpoint dict_set {V : Type} (d : list (string * V)) (k : string) (v : V)
  : list (string * V) :=
  match d with
  | [] => [(k, v)]
  | (k', v') :: d' =>
      if String.eqb k k' then (k, v) :: d' else (k', v') :: dict_set d' k v
  end.

Definition dict_has {V : Type} (k : string) (d : list (string * V)) : bool :=
  match dict_lookup k d with
  | Some _ => true
  | None => false
  end.

(** [v == s] for a string [s] *)
Definition eq_str (v : pyval) (s : string) : bool :=
  match v with
  | PStr t => String.eqb t s
  | _ => false
  end.

Definition no_attribute (v : pyval) (attr : string) : exn :=
  mkExn AttributeError
        ("'" ++ type_name v ++ "' object has no attribute '" ++ attr ++ "'").

(** [v.get(k, default)] *)
Definition get (v : pyval) (k : string) (default : pyval) : result pyval :=
  match v with
  | PDict d =>
      match dict_lookup k d with
      | Some x => Ok x
      | None => Ok default
      end
  | _ => Raise (no_attribute v "get")
  end.

(** [k in v] for a string [k] *)
Definition contains_key (k : string) (v : pyval) : result bool :=
  match v with
  | PDict d => Ok (dict_has k d)
  | PList l => Ok (existsb (fun x => eq_str x k) l)
  | PStr s => Ok (PyString.contains s k)
  | _ => Raise (mkExn TypeError
                      ("argument of type '" ++ type_name v ++ "' is not iterable"))
  end.

(** [v[k]] for a string [k] *)
Definition getitem (v : pyval) (k : string) : result pyval :=
  match v with
  | PDict d =>
      match dict_lookup k d with
      | Some x => Ok x
      | None => Raise (mkExn KeyError ("'" ++ k ++ "'"))
      end
  | PList _ =>
      Raise (mkExn TypeError "list indices must be integers or slices, not str")
  | PStr _ =>
      Raise (mkExn TypeError "string indices must be integers, not 'str'")
  | _ => Raise (mkExn TypeError
                      ("'" ++ type_name v ++ "' object is not subscriptable"))
  end.

(** The items a [for] loop over [v] visits *)
Definition iter (v : pyval) : result (list pyval) :=
  match v with
  | PList l => Ok l
  | PDict d => Ok (map (fun kv => PStr (fst kv)) d)
  | PStr s => Ok (map (fun c => PStr (snd c)) (utf8_chars s))
  | _ => Raise (mkExn TypeError
                      ("'" ++ type_name v ++ "' object is not iterable"))
  end.

(** [v.startswith(p)] *)
Definition startswith (v : pyval) (p : string) : result bool :=
  match v with
  | PStr s => Ok (PyString.startswith s p)
  | _ => Raise (no_attribute v "startswith")
  end.

(** [sep.join(items)] *)
Fixpoint join_from (i : Z) (items : list pyval) : result (list string) :=
  match items with
  | [] => Ok []
  | PStr s :: rest => rbind (join_from (i + 1) rest) (fun ss => Ok (s :: ss))
  | v :: _ =>
      Raise (mkExn TypeError
                   ("sequence item " ++ str_of_Z i ++ ": expected str instance, "
                    ++ type_name v ++ " found"))
  end.

Definition join (sep : string) (items : list pyval) : result string :=
  rbind (join_from 0 items) (fun ss => Ok (PyString.join sep ss)).

End PyValue.

(** ** [json.dumps] *)

Module Json.

(** The escape of one code point under [ensure_ascii=True]. *)
Definition escape_ascii (cp : Z) : string :=
  if cp =? 34 then bytes [92; 34]
  else if cp =? 92 then bytes [92; 92]
  else if cp =? 10 then bytes [92; 110]
  else if cp =? 13 then bytes [92; 114]
  else if cp =? 9 then bytes [92; 116]
  else if cp =? 8 then bytes [92; 98]
  else if cp =? 12 then bytes [92; 102]
  else if (32 <=? cp) && (cp <=? 126) then bytes [cp]
  else if cp <? 65536 then bytes [92; 117] ++ hex4 cp
  else
    let v := cp - 65536 in
    bytes [92; 117] ++ hex4 (Z.lor 55296 (Z.land (Z.shiftr v 10) 1023))
    ++ bytes [92; 117] ++ hex4 (Z.lor 56320 (Z.land v 1023)).

(** The escape of one byte under [ensure_ascii=False]. *)
Definition escape_byte (a : ascii) : string :=
  let b := byte_val a in
  if b =? 34 then bytes [92; 34]
  else if b =? 92 then bytes [92; 92]
  else if b =? 10 then bytes [92; 110]
  else if b =? 13 then bytes [92; 114]
  else if b =? 9 then bytes [92; 116]
  else if b =? 8 then bytes [92; 98]
  else if b =? 12 then bytes [92; 102]
  else if b <? 32 then bytes [92; 117] ++ hex4 b
  else String a EmptyString.

Definition quote : string := bytes [34].

Definition encode_string (ensure_ascii : bool) (s : string) : string :=
  if ensure_ascii
  then quote ++ String.concat EmptyString (map escape_ascii (code_points s)) ++ quote
  else quote ++ String.concat EmptyString (map escape_byte (list_ascii_of_string s))
       ++ quote.

Definition newline_indent (indent : option nat) (level : nat) : string :=
  match indent with
  | None => EmptyString
  | Some n => newline ++ repeat_string " " (n * level)
  end.

Definition item_separator (indent : option nat) (level : nat) : string :=
  match indent with
  | None => ", "
  | Some _ => "," ++ newline_indent indent level
  end.

Fixpoint encode (ensure_ascii : bool) (indent : option nat) (level : nat)
         (v : pyval) : string :=
  match v with
  | PNone => "null"
  | PBool true => "true"
  | PBool false => "false"
  | PInt n => str_of_Z n
  | PStr s => encode_string ensure_ascii s
  | PList [] => "[]"
  | PList items =>
      "[" ++ newline_indent indent (S level)
      ++ PyString.join (item_separator indent (S level))
           (map (encode ensure_ascii indent (S level)) items)
      ++ newline_indent indent level ++ "]"
  | PDict [] => "{}"
  | PDict entries =>
      "{" ++ newline_indent indent (S level)
      ++ PyString.join (item_separator indent (S level))
           (map (fun kv => encode_string ensure_ascii (fst kv) ++ ": "
                           ++ encode ensure_ascii indent (S level) (snd kv))
                entries)
      ++ newline_indent indent level ++ "}"
  end.

(** [json.dumps(v)] *)
Definition dumps (v : pyval) : string := encode true None 0 v.

(** [json.dumps(v, ensure_ascii=False, indent=2)] *)
Definition dumps_indent2 (v : pyval) : string := encode false (Some 2%nat) 0 v.

End Json.

Import PyValue.

(** ** Configuration records, requests and the environment *)

(** [Tools.Valves]: the process-wide settings *)
Record Valves := mkValves {
  MCP_SERVER_URL : string;
  MCP_SERVER_GROUP : string;
  ENABLED_TOOLS : string;
  READ_ONLY_MODE : bool
}.

(** [Tools.UserValves]: the per-caller credentials *)
Record UserValves := mkUserValves {
  LITELLM_API_KEY : string;
  JIRA_PAT : string;
  REQUEST_TIMEOUT : Z
}.

Record Tools := mkTools {
  valves : Valves;
  user_valves : UserValves;
  protocol_version : string;
  client_name : string;
  client_version : string
}.

(** [Tools.__init__] *)
Definition Tools_init : Tools :=
  mkTools (mkValves "https://<LITELLM_APU_URL>/mcp/" "<MCP_GROUP>" "" true)
          (mkUserValves "" "" 120)
          "2024-11-05" "OpenWebUI-MCP-Jira" "1.2.0".

(** The keyword arguments of one [requests.post] call *)
Record request := mkRequest {
  req_url : string;
  req_headers : list (string * string);
  req_json : pyval;
  req_timeout : Z
}.

(** What the code reads of a [requests.Response]: [status_code], [text],
    [headers.get] and [json()] *)
Record response := mkResponse {
  status_code : Z;
  text : string;
  headers_get : string -> option string;
  json : result pyval
}.

(** The caller context [__user__]: a dict whose values are JSON-like or a
    [UserValves] instance, or any other JSON-like value ([None] included). *)
Inductive user_value :=
| Typed (uv : UserValves)
| Plain (v : pyval).

Inductive user_ctx :=
| UserDict (d : list (string * user_value))
| UserOther (v : pyval).

(** The library code the module calls.
    - [post sent req]: the outcome of [requests.post] for [req] after the
      requests [sent] were posted;
    - [json_loads]: [json.loads] on a string;
    - [UserValves_init d]: the pydantic constructor of [UserValves] on the
      keyword arguments [d];
    - [container_repr]: [repr] of a list or a dict. *)
Record Env := mkEnv {
  post : list request -> request -> result response;
  json_loads : string -> result pyval;
  UserValves_init : dict -> result UserValves;
  container_repr : pyval -> string
}.

(** ** Operations: posted requests as state, exceptions as results *)

Definition trace := list request.

Definition M (A : Type) : Type := trace -> result A * trace.

Definition ret {A} (a : A) : M A := fun tr => (Ok a, tr).

Definition raise {A} (e : exn) : M A := fun tr => (Raise e, tr).

Definition bind {A B} (c : M A) (k : A -> M B) : M B :=
  fun tr =>
    match c tr with
    | (Ok a, tr') => k a tr'
    | (Raise e, tr') => (Raise e, tr')
    end.

Definition lift {A} (r : result A) : M A := fun tr => (r, tr).

(** [try: c  except: h e] where [h] re-raises what no clause matches *)
Definition try_except {A} (c : M A) (h : exn -> M A) : M A :=
  fun tr =>
    match c tr with
    | (Ok a, tr') => (Ok a, tr')
    | (Raise e, tr') => h e tr'
    end.

Declare Scope py_scope.
Delimit Scope py_scope with py.
Notation "x <- c ;; k" := (bind c (fun x => k))
  (at level 61, c at next level, right associativity) : py_scope.
Notation "c ;;; k" := (bind c (fun _ => k))
  (at level 61, right associativity) : py_scope.
Local Open Scope py_scope.

Definition str_truthy (s : string) : bool := negb (String.eqb s EmptyString).

Section Connector.

Variable env : Env.

(** [requests.post(url, headers=.., json=.., timeout=..)] *)
Definition requests_post (req : request) : M response :=
  fun tr => (post env tr req, tr ++ [req])%list.

(** [str(v)], also the formatting of [v] in an f-string *)
Definition py_str (v : pyval) : string :=
  match v with
  | PNone => "None"
  | PBool true => "True"
  | PBool false => "False"
  | PInt n => str_of_Z n
  | PStr s => s
  | PList _ | PDict _ => container_repr env v
  end.

(** [__user__.get("valves")] *)
Definition user_get_valves (__user__ : user_ctx) : result user_value :=
  match __user__ with
  | UserDict d =>
      match dict_lookup "valves" d with
      | Some x => Ok x
      | None => Ok (Plain PNone)
      end
  | UserOther (PDict d) =>
      match dict_lookup "valves" d with
      | Some x => Ok (Plain x)
      | None => Ok (Plain PNone)
      end
  | UserOther v => Raise (no_attribute v "get")
  end.

Definition user_truthy (__user__ : user_ctx) : bool :=
  match __user__ with
  | UserDict d => match d with [] => false | _ => true end
  | UserOther v => truthy v
  end.

Definition _get_user_valves (self : Tools) (__user__ : user_ctx)
  : result UserValves :=
  if negb (user_truthy __user__) then Ok (user_valves self)
  else
    rbind (user_get_valves __user__) (fun valves =>
    match valves with
    | Plain PNone => Ok (user_valves self)
    | Typed uv => Ok uv
    | Plain (PDict d) => UserValves_init env d
    | Plain _ => Ok (user_valves self)
    end).

Definition _get_headers (self : Tools) (user_valves : UserValves)
           (session_id : option string) : list (string * string) :=
  let headers :=
    [("Content-Type", "application/json");
     ("Accept", "application/json, text/event-stream;q=0.5");
     ("User-Agent", client_name self ++ "/" ++ client_version self);
     ("Mcp-Protocol-Version", protocol_version self);
     ("x-mcp-servers", MCP_SERVER_GROUP (valves self))] in
  let headers :=
    if str_truthy (LITELLM_API_KEY user_valves)
    then dict_set headers "x-litellm-api-key"
                  ("Bearer " ++ LITELLM_API_KEY user_valves)
    else headers in
  let headers :=
    if str_truthy (JIRA_PAT user_valves)
    then dict_set headers "x-mcp-jira-authorization"
                  ("Token " ++ JIRA_PAT user_valves)
    else headers in
  match session_id with
  | Some sid => if str_truthy sid then dict_set headers "Mcp-Session-Id" sid
                else headers
  | None => headers
  end.

Definition _json_rpc_payload (method : string) (params : option pyval)
           (request_id : Z) : pyval :=
  let payload :=
    [("jsonrpc", PStr "2.0"); ("method", PStr method); ("id", PInt request_id)] in
  match params with
  | Some p => PDict (dict_set payload "params" p)
  | None => PDict payload
  end.

Definition init_payload (self : Tools) : pyval :=
  _json_rpc_payload "initialize"
    (Some (PDict
       [("protocolVersion", PStr (protocol_version self));
        ("capabilities",
         PDict [("roots", PDict [("listChanged", PBool true)]);
                ("sampling", PDict [])]);
        ("clientInfo",
         PDict [("name", PStr (client_name self));
                ("version", PStr (client_version self))])]))
    1.

Definition notify_payload : pyval :=
  PDict [("jsonrpc", PStr "2.0"); ("method", PStr "notifications/initialized")].

Definition handshake_timeout (user_valves : UserValves) : Z :=
  Z.max 30 (REQUEST_TIMEOUT user_valves / 4).

Definition _handshake (self : Tools) (user_valves : UserValves)
  : M (option string) :=
  response <- requests_post
                (mkRequest (MCP_SERVER_URL (valves self))
                           (_get_headers self user_valves None)
                           (init_payload self)
                           (handshake_timeout user_valves)) ;;
  if negb (status_code response =? 200)
  then raise (mkExn PlainException
                    ("HTTP " ++ str_of_Z (status_code response) ++ ": "
                     ++ text response))
  else
    let session_id := headers_get response "Mcp-Session-Id" in
    data <- lift (json response) ;;
    has_error <- lift (contains_key "error" data) ;;
    if has_error : bool
    then
      err <- lift (getitem data "error") ;;
      raise (mkExn PlainException ("MCP Error: " ++ py_str err))
    else
      requests_post
        (mkRequest (MCP_SERVER_URL (valves self))
                   (_get_headers self user_valves session_id)
                   notify_payload
                   10) ;;;
      ret session_id.

Definition write_tools : list string :=
  ["jira_create_issue"; "jira_update_issue"; "jira_delete_issue";
   "jira_batch_create_issues"; "jira_add_comment"; "jira_transition_issue";
   "jira_add_worklog"; "jira_link_to_epic"; "jira_create_sprint";
   "jira_update_sprint"; "jira_create_issue_link"; "jira_remove_issue_link";
   "jira_create_version"; "jira_batch_create_versions";
   "jira_create_remote_issue_link"].

Definition _is_write_tool (tool_name : string) : bool :=
  existsb (String.eqb tool_name) write_tools.

(** The message opens with the four code points U+00F0 U+0178 U+201D U+2019
    of the source literal. *)
Definition _read_only_message (operation : string) : string :=
  bytes [195; 176; 197; 184; 226; 128; 157; 226; 128; 153]
  ++ " **Read-Only Mode Active**" ++ newline ++ newline
  ++ "I cannot " ++ operation
  ++ " because the Jira integration is currently in read-only mode. This is a safety setting configured by your administrator."
  ++ newline ++ newline
  ++ "If you need to perform this action, please:" ++ newline
  ++ "1. Contact your administrator to enable write access, or" ++ newline
  ++ "2. Perform this action directly in Jira".

Definition not_configured : string :=
  Json.dumps
    (PDict [("error", PStr "Jira PAT not configured");
            ("message",
             PStr "Please configure your Jira Personal Access Token in User Settings")]).

(** The loop of [_call_tool] over [content]: one step per item *)
Definition collect_item (item : pyval) (text_results : list pyval)
  : result (list pyval) :=
  rbind (get item "type" PNone) (fun ty =>
  if eq_str ty "text"
  then rbind (get item "text" (PStr "")) (fun t =>
       Ok (text_results ++ [t])%list)
  else
    rbind (get item "type" PNone) (fun ty' =>
    if eq_str ty' "resource"
    then rbind (get item "resource" (PDict [])) (fun resource =>
         rbind (get resource "uri" (PStr "unknown")) (fun uri =>
         Ok (text_results ++ [PStr ("[Resource: " ++ py_str uri ++ "]")])%list))
    else Ok text_results)).

Fixpoint collect_items (content : list pyval) (text_results : list pyval)
  : result (list pyval) :=
  match content with
  | [] => Ok text_results
  | item :: rest =>
      rbind (collect_item item text_results) (collect_items rest)
  end.

(** Lines 223-233 of [_call_tool]: the normalization of a response body *)
Definition normalize (data : pyval) : result string :=
  rbind (get data "result" (PDict [])) (fun result_ =>
  rbind (get result_ "content" (PList [])) (fun content =>
  rbind (iter content) (fun items =>
  rbind (collect_items items []) (fun text_results =>
  match text_results with
  | [] => Ok (Json.dumps data)
  | _ => PyValue.join newline text_results
  end)))).

Definition call_payload (tool_name : string) (arguments : pyval) : pyval :=
  _json_rpc_payload "tools/call"
    (Some (PDict [("name", PStr tool_name); ("arguments", arguments)])) 3.

Definition _call_tool_try (self : Tools) (tool_name : string)
           (arguments : pyval) (user_valves : UserValves) : M string :=
  session_id <- _handshake self user_valves ;;
  response <- requests_post
                (mkRequest (MCP_SERVER_URL (valves self))
                           (_get_headers self user_valves session_id)
                           (call_payload tool_name arguments)
                           (REQUEST_TIMEOUT user_valves)) ;;
  if negb (status_code response =? 200)
  then ret (Json.dumps
              (PDict [("error",
                       PStr ("HTTP " ++ str_of_Z (status_code response) ++ ": "
                             ++ text response))]))
  else
    data <- lift (json response) ;;
    has_error <- lift (contains_key "error" data) ;;
    if has_error : bool
    then
      err <- lift (getitem data "error") ;;
      err_msg <- lift (match err with
                       | PDict _ => get err "message" (PStr (py_str err))
                       | _ => Ok (PStr (py_str err))
                       end) ;;
      ret (Json.dumps (PDict [("error", err_msg)]))
    else lift (normalize data).

Definition _call_tool_except (user_valves : UserValves) (e : exn) : M string :=
  if is_Timeout e
  then ret (Json.dumps
              (PDict [("error",
                       PStr ("Request timeout after "
                             ++ str_of_Z (REQUEST_TIMEOUT user_valves)
                             ++ "s - try increasing REQUEST_TIMEOUT in user settings"))]))
  else if is_Exception e
  then ret (Json.dumps (PDict [("error", PStr (exn_msg e))]))
  else raise e.

Definition _call_tool (self : Tools) (tool_name : string) (arguments : pyval)
           (user_valves : UserValves) : M string :=
  if negb (str_truthy (JIRA_PAT user_valves)) then ret not_configured
  else try_except (_call_tool_try self tool_name arguments user_valves)
                  (_call_tool_except user_valves).

(** *** Discovery *)

Definition list_payload : pyval := _json_rpc_payload "tools/list" (Some (PDict [])) 2.

(** [[t.strip() for t in ENABLED_TOOLS.split(",") if t.strip()]] *)
Definition enabled_list (self : Tools) : list string :=
  map strip
      (filter (fun t => str_truthy (strip t))
              (split "," (ENABLED_TOOLS (valves self)))).

Definition list_truthy {A} (l : list A) : bool :=
  match l with
  | [] => false
  | _ => true
  end.

(** One turn of the loop of [discover_jira_tools] over [tools] *)
Definition discover_tool (self : Tools) (enabled : list string) (tool : pyval)
           (jira_tools : list pyval) : result (list pyval) :=
  rbind (get tool "name" (PStr "")) (fun name =>
  match name with
  | PStr n =>
      if negb (PyString.startswith n "jira_") then Ok jira_tools
      else if list_truthy enabled && negb (existsb (String.eqb n) enabled)
      then Ok jira_tools
      else if READ_ONLY_MODE (valves self) && _is_write_tool n
      then Ok jira_tools
      else
        rbind (get tool "description" (PStr "")) (fun description =>
        rbind (get tool "inputSchema" (PDict [])) (fun input_schema =>
        Ok (jira_tools
            ++ [PDict [("name", name); ("description", description);
                       ("input_schema", input_schema)]])%list))
  | _ => Raise (no_attribute name "startswith")
  end).

Fixpoint discover_tools (self : Tools) (enabled : list string)
         (tools : list pyval) (jira_tools : list pyval) : result (list pyval) :=
  match tools with
  | [] => Ok jira_tools
  | tool :: rest =>
      rbind (discover_tool self enabled tool jira_tools)
            (discover_tools self enabled rest)
  end.

(** Lines 288-316 of [discover_jira_tools] *)
Definition discover_filter (self : Tools) (result_ : pyval) : result string :=
  rbind (get result_ "result" (PDict [])) (fun r =>
  rbind (get r "tools" (PList [])) (fun tools =>
  let enabled := enabled_list self in
  rbind (iter tools) (fun items =>
  rbind (discover_tools self enabled items []) (fun jira_tools =>
  Ok (Json.dumps_indent2 (PList jira_tools)))))).

Definition discover_try (self : Tools) (user_valves : UserValves) : M string :=
  session_id <- _handshake self user_valves ;;
  response <- requests_post
                (mkRequest (MCP_SERVER_URL (valves self))
                           (_get_headers self user_valves session_id)
                           list_payload
                           60) ;;
  if negb (status_code response =? 200)
  then ret (Json.dumps
              (PDict [("error",
                       PStr ("HTTP " ++ str_of_Z (status_code response) ++ ": "
                             ++ text response))]))
  else
    result_ <- lift (json response) ;;
    has_error <- lift (contains_key "error" result_) ;;
    if has_error : bool
    then
      err <- lift (getitem result_ "error") ;;
      ret (Json.dumps (PDict [("error", err)]))
    else lift (discover_filter self result_).

Definition discover_except (e : exn) : M string :=
  if is_Exception e
  then ret (Json.dumps
              (PDict [("error", PStr ("Discovery failed: " ++ exn_msg e))]))
  else raise e.

Definition discover_jira_tools (self : Tools) (__user__ : user_ctx) : M string :=
  user_valves <- lift (_get_user_valves self __user__) ;;
  if negb (str_truthy (JIRA_PAT user_valves)) then ret not_configured
  else try_except (discover_try self user_valves) discover_except.

(** *** Search and read operations *)

(** [d[k] = v] when [cond] holds *)
Definition set_if (cond : bool) (d : dict) (k : string) (v : pyval) : dict :=
  if cond then dict_set d k v else d.

Definition jira_search (self : Tools) (jql : string) (max_results : Z)
           (fields : string) (__user__ : user_ctx) : M string :=
  user_valves <- lift (_get_user_valves self __user__) ;;
  let arguments := [("jql", PStr jql); ("limit", PInt max_results)] in
  let arguments := set_if (str_truthy fields) arguments "fields" (PStr fields) in
  _call_tool self "jira_search" (PDict arguments) user_valves.

Definition jira_get_issue (self : Tools) (issue_key expand : string)
           (__user__ : user_ctx) : M string :=
  user_valves <- lift (_get_user_valves self __user__) ;;
  let arguments := [("issue_key", PStr issue_key)] in
  let arguments := set_if (str_truthy expand) arguments "expand" (PStr expand) in
  _call_tool self "jira_get_issue" (PDict arguments) user_valves.

Definition jira_get_all_projects (self : Tools) (__user__ : user_ctx) : M string :=
  user_valves <- lift (_get_user_valves self __user__) ;;
  _call_tool self "jira_get_all_projects" (PDict []) user_valves.

Definition jira_get_project_issues (self : Tools) (project_key : string)
           (max_results : Z) (__user__ : user_ctx) : M string :=
  user_valves <- lift (_get_user_valves self __user__) ;;
  _call_tool self "jira_get_project_issues"
             (PDict [("project_key", PStr project_key); ("limit", PInt max_results)])
             user_valves.

Definition jira_get_transitions (self : Tools) (issue_key : string)
           (__user__ : user_ctx) : M string :=
  user_valves <- lift (_get_user_valves self __user__) ;;
  _call_tool self "jira_get_transitions" (PDict [("issue_key", PStr issue_key)])
             user_valves.

Definition jira_get_agile_boards (self : Tools) (project_key : string)
           (__user__ : user_ctx) : M string :=
  user_valves <- lift (_get_user_valves self __user__) ;;
  let arguments :=
    set_if (str_truthy project_key) [] "project_key" (PStr project_key) in
  _call_tool self "jira_get_agile_boards" (PDict arguments) user_valves.

Definition jira_get_sprints_from_board (self : Tools) (board_id state : string)
           (__user__ : user_ctx) : M string :=
  user_valves <- lift (_get_user_valves self __user__) ;;
  let arguments := [("board_id", PStr board_id)] in
  let arguments := set_if (str_truthy state) arguments "state" (PStr state) in
  _call_tool self "jira_get_sprints_from_board" (PDict arguments) user_valves.

Definition jira_get_sprint_issues (self : Tools) (sprint_id : string)
           (__user__ : user_ctx) : M string :=
  user_valves <- lift (_get_user_valves self __user__) ;;
  _call_tool self "jira_get_sprint_issues" (PDict [("sprint_id", PStr sprint_id)])
             user_valves.

Definition jira_get_worklog (self : Tools) (issue_key : string)
           (__user__ : user_ctx) : M string :=
  user_valves <- lift (_get_user_valves self __user__) ;;
  _call_tool self "jira_get_worklog" (PDict [("issue_key", PStr issue_key)])
             user_valves.

Definition jira_get_user_profile (self : Tools) (user_identifier : string)
           (__user__ : user_ctx) : M string :=
  user_valves <- lift (_get_user_valves self __user__) ;;
  _call_tool self "jira_get_user_profile"
             (PDict [("user_identifier", PStr user_identifier)]) user_valves.

Definition jira_search_fields (self : Tools) (keyword : string) (limit : Z)
           (__user__ : user_ctx) : M string :=
  user_valves <- lift (_get_user_valves self __user__) ;;
  _call_tool self "jira_search_fields"
             (PDict [("keyword", PStr keyword); ("limit", PInt limit)]) user_valves.

Definition jira_get_project_versions (self : Tools) (project_key : string)
           (__user__ : user_ctx) : M string :=
  user_valves <- lift (_get_user_valves self __user__) ;;
  _call_tool self "jira_get_project_versions"
             (PDict [("project_key", PStr project_key)]) user_valves.

Definition jira_get_board_issues (self : Tools) (board_id jql : string)
           (max_results : Z) (__user__ : user_ctx) : M string :=
  user_valves <- lift (_get_user_valves self __user__) ;;
  let arguments :=
    [("board_id", PStr board_id);
     ("jql", PStr (if str_truthy jql then jql else "order by rank"));
     ("limit", PInt max_results)] in
  _call_tool self "jira_get_board_issues" (PDict arguments) user_valves.

Definition jira_get_link_types (self : Tools) (__user__ : user_ctx) : M string :=
  user_valves <- lift (_get_user_valves self __user__) ;;
  _call_tool self "jira_get_link_types" (PDict []) user_valves.

(** *** Write operations *)

Definition jira_create_issue (self : Tools)
           (project_key summary issue_type description assignee priority labels : string)
           (__user__ : user_ctx) : M string :=
  if READ_ONLY_MODE (valves self)
  then ret (_read_only_message "create a new Jira issue")
  else
    user_valves <- lift (_get_user_valves self __user__) ;;
    let arguments :=
      [("project_key", PStr project_key); ("summary", PStr summary);
       ("issue_type", PStr issue_type)] in
    let arguments :=
      set_if (str_truthy description) arguments "description" (PStr description) in
    let arguments :=
      set_if (str_truthy assignee) arguments "assignee" (PStr assignee) in
    let arguments :=
      set_if (str_truthy priority) arguments "priority" (PStr priority) in
    let arguments := set_if (str_truthy labels) arguments "labels" (PStr labels) in
    _call_tool self "jira_create_issue" (PDict arguments) user_valves.

Definition jira_update_issue (self : Tools)
           (issue_key summary description assignee priority labels : string)
           (__user__ : user_ctx) : M string :=
  if READ_ONLY_MODE (valves self)
  then ret (_read_only_message ("update issue " ++ issue_key))
  else
    user_valves <- lift (_get_user_valves self __user__) ;;
    let fields := set_if (str_truthy summary) [] "summary" (PStr summary) in
    let fields :=
      set_if (str_truthy description) fields "description" (PStr description) in
    let fields := set_if (str_truthy assignee) fields "assignee" (PStr assignee) in
    let fields :=
      set_if (str_truthy priority) fields "priority"
             (PDict [("name", PStr priority)]) in
    let fields :=
      set_if (str_truthy labels) fields "labels"
             (PList (map (fun l => PStr (strip l)) (split "," labels))) in
    _call_tool self "jira_update_issue"
               (PDict [("issue_key", PStr issue_key); ("fields", PDict fields)])
               user_valves.

Definition jira_transition_issue (self : Tools)
           (issue_key transition_id comment : string)
           (__user__ : user_ctx) : M string :=
  if READ_ONLY_MODE (valves self)
  then ret (_read_only_message ("transition issue " ++ issue_key))
  else
    user_valves <- lift (_get_user_valves self __user__) ;;
    let arguments :=
      [("issue_key", PStr issue_key); ("transition_id", PStr transition_id)] in
    let arguments := set_if (str_truthy comment) arguments "comment" (PStr comment) in
    _call_tool self "jira_transition_issue" (PDict arguments) user_valves.

Definition jira_add_comment (self : Tools) (issue_key comment : string)
           (__user__ : user_ctx) : M string :=
  if READ_ONLY_MODE (valves self)
  then ret (_read_only_message ("add a comment to issue " ++ issue_key))
  else
    user_valves <- lift (_get_user_valves self __user__) ;;
    _call_tool self "jira_add_comment"
               (PDict [("issue_key", PStr issue_key); ("comment", PStr comment)])
               user_valves.

Definition jira_add_worklog (self : Tools)
           (issue_key time_spent comment started : string)
           (__user__ : user_ctx) : M string :=
  if READ_ONLY_MODE (valves self)
  then ret (_read_only_message ("add a worklog to issue " ++ issue_key))
  else
    user_valves <- lift (_get_user_valves self __user__) ;;
    let arguments :=
      [("issue_key", PStr issue_key); ("time_spent", PStr time_spent)] in
    let arguments := set_if (str_truthy comment) arguments "comment" (PStr comment) in
    let arguments := set_if (str_truthy started) arguments "started" (PStr started) in
    _call_tool self "jira_add_worklog" (PDict arguments) user_valves.

Definition jira_link_to_epic (self : Tools) (issue_key epic_key : string)
           (__user__ : user_ctx) : M string :=
  if READ_ONLY_MODE (valves self)
  then ret (_read_only_message
              ("link issue " ++ issue_key ++ " to epic " ++ epic_key))
  else
    user_valves <- lift (_get_user_valves self __user__) ;;
    _call_tool self "jira_link_to_epic"
               (PDict [("issue_key", PStr issue_key); ("epic_key", PStr epic_key)])
               user_valves.

Definition jira_create_issue_link (self : Tools)
           (link_type inward_issue_key outward_issue_key comment : string)
           (__user__ : user_ctx) : M string :=
  if READ_ONLY_MODE (valves self)
  then ret (_read_only_message
              ("create a link between " ++ inward_issue_key ++ " and "
               ++ outward_issue_key))
  else
    user_valves <- lift (_get_user_valves self __user__) ;;
    let arguments :=
      [("link_type", PStr link_type);
       ("inward_issue_key", PStr inward_issue_key);
       ("outward_issue_key", PStr outward_issue_key)] in
    let arguments := set_if (str_truthy comment) arguments "comment" (PStr comment) in
    _call_tool self "jira_create_issue_link" (PDict arguments) user_valves.

Definition jira_delete_issue (self : Tools) (issue_key : string)
           (__user__ : user_ctx) : M string :=
  if READ_ONLY_MODE (valves self)
  then ret (_read_only_message ("delete issue " ++ issue_key))
  else
    user_valves <- lift (_get_user_valves self __user__) ;;
    _call_tool self "jira_delete_issue" (PDict [("issue_key", PStr issue_key)])
               user_valves.

(** *** Generic tool call *)

(** [json.loads(arguments) if isinstance(arguments, str) else arguments] *)
Definition parse_arguments (arguments : pyval) : result pyval :=
  match arguments with
  | PStr s => json_loads env s
  | _ => Ok arguments
  end.

Definition call_mcp_tool (self : Tools) (tool_name : string) (arguments : pyval)
           (__user__ : user_ctx) : M string :=
  if READ_ONLY_MODE (valves self) && _is_write_tool tool_name
  then ret (_read_only_message ("execute '" ++ tool_name ++ "'"))
  else
    user_valves <- lift (_get_user_valves self __user__) ;;
    match parse_arguments arguments with
    | Ok args_dict => _call_tool self tool_name args_dict user_valves
    | Raise e =>
        if is_JSONDecodeError e
        then ret (Json.dumps
                    (PDict [("error",
                             PStr ("Invalid JSON arguments: " ++ exn_msg e))]))
        else raise e
    end.

(** *** The public operation surface *)

Inductive operation :=
| Discover
| Search (jql : string) (max_results : Z) (fields : string)
| GetIssue (issue_key expand : string)
| GetAllProjects
| GetProjectIssues (project_key : string) (max_results : Z)
| GetTransitions (issue_key : string)
| GetAgileBoards (project_key : string)
| GetSprintsFromBoard (board_id state : string)
| GetSprintIssues (sprint_id : string)
| GetWorklog (issue_key : string)
| GetUserProfile (user_identifier : string)
| SearchFields (keyword : string) (limit : Z)
| GetProjectVersions (project_key : string)
| GetBoardIssues (board_id jql : string) (max_results : Z)
| GetLinkTypes
| CreateIssue (project_key summary issue_type description assignee priority labels : string)
| UpdateIssue (issue_key summary description assignee priority labels : string)
| TransitionIssue (issue_key transition_id comment : string)
| AddComment (issue_key comment : string)
| AddWorklog (issue_key time_spent comment started : string)
| LinkToEpic (issue_key epic_key : string)
| CreateIssueLink (link_type inward_issue_key outward_issue_key comment : string)
| DeleteIssue (issue_key : string)
| CallMcpTool (tool_name : string) (arguments : pyval).

Definition run (self : Tools) (op : operation) (__user__ : user_ctx) : M string :=
  match op with
  | Discover => discover_jira_tools self __user__
  | Search jql n fields => jira_search self jql n fields __user__
  | GetIssue k e => jira_get_issue self k e __user__
  | GetAllProjects => jira_get_all_projects self __user__
  | GetProjectIssues p n => jira_get_project_issues self p n __user__
  | GetTransitions k => jira_get_transitions self k __user__
  | GetAgileBoards p => jira_get_agile_boards self p __user__
  | GetSprintsFromBoard b st => jira_get_sprints_from_board self b st __user__
  | GetSprintIssues sp => jira_get_sprint_issues self sp __user__
  | GetWorklog k => jira_get_worklog self k __user__
  | GetUserProfile u => jira_get_user_profile self u __user__
  | SearchFields kw n => jira_search_fields self kw n __user__
  | GetProjectVersions p => jira_get_project_versions self p __user__
  | GetBoardIssues b jql n => jira_get_board_issues self b jql n __user__
  | GetLinkTypes => jira_get_link_types self __user__
  | CreateIssue p s t d a pr l => jira_create_issue self p s t d a pr l __user__
  | UpdateIssue k s d a pr l => jira_update_issue self k s d a pr l __user__
  | TransitionIssue k t c => jira_transition_issue self k t c __user__
  | AddComment k c => jira_add_comment self k c __user__
  | AddWorklog k t c st => jira_add_worklog self k t c st __user__
  | LinkToEpic k e => jira_link_to_epic self k e __user__
  | CreateIssueLink lt i o c => jira_create_issue_link self lt i o c __user__
  | DeleteIssue k => jira_delete_issue self k __user__
  | CallMcpTool name arguments => call_mcp_tool self name arguments __user__
  end.

End Connector.

(** ** Definitions used by the statements *)

(** The tool name an operation hands to [_call_tool]; discovery has none. *)
Definition tool_name_of (op : operation) : option string :=
  match op with
  | Discover => None
  | Search _ _ _ => Some "jira_search"
  | GetIssue _ _ => Some "jira_get_issue"
  | GetAllProjects => Some "jira_get_all_projects"
  | GetProjectIssues _ _ => Some "jira_get_project_issues"
  | GetTransitions _ => Some "jira_get_transitions"
  | GetAgileBoards _ => Some "jira_get_agile_boards"
  | GetSprintsFromBoard _ _ => Some "jira_get_sprints_from_board"
  | GetSprintIssues _ => Some "jira_get_sprint_issues"
  | GetWorklog _ => Some "jira_get_worklog"
  | GetUserProfile _ => Some "jira_get_user_profile"
  | SearchFields _ _ => Some "jira_search_fields"
  | GetProjectVersions _ => Some "jira_get_project_versions"
  | GetBoardIssues _ _ _ => Some "jira_get_board_issues"
  | GetLinkTypes => Some "jira_get_link_types"
  | CreateIssue _ _ _ _ _ _ _ => Some "jira_create_issue"
  | UpdateIssue _ _ _ _ _ _ => Some "jira_update_issue"
  | TransitionIssue _ _ _ => Some "jira_transition_issue"
  | AddComment _ _ => Some "jira_add_comment"
  | AddWorklog _ _ _ _ => Some "jira_add_worklog"
  | LinkToEpic _ _ => Some "jira_link_to_epic"
  | CreateIssueLink _ _ _ _ => Some "jira_create_issue_link"
  | DeleteIssue _ => Some "jira_delete_issue"
  | CallMcpTool tool_name _ => Some tool_name
  end.

(** An operation is write-classified when its tool name is in the
    Write-Tool Set. *)
Definition is_write_operation (op : operation) : bool :=
  match tool_name_of op with
  | Some tool_name => _is_write_tool tool_name
  | None => false
  end.

(** The action a write-classified operation names when it is denied. *)
Definition attempted_action (op : operation) : string :=
  match op with
  | CreateIssue _ _ _ _ _ _ _ => "create a new Jira issue"
  | UpdateIssue issue_key _ _ _ _ _ => "update issue " ++ issue_key
  | TransitionIssue issue_key _ _ => "transition issue " ++ issue_key
  | AddComment issue_key _ => "add a comment to issue " ++ issue_key
  | AddWorklog issue_key _ _ _ => "add a worklog to issue " ++ issue_key
  | LinkToEpic issue_key epic_key =>
      "link issue " ++ issue_key ++ " to epic " ++ epic_key
  | CreateIssueLink _ inward outward _ =>
      "create a link between " ++ inward ++ " and " ++ outward
  | DeleteIssue issue_key => "delete issue " ++ issue_key
  | CallMcpTool tool_name _ => "execute '" ++ tool_name ++ "'"
  | _ => EmptyString
  end.

(** The read-only gate fires for this operation. *)
Definition denied (self : Tools) (op : operation) : bool :=
  READ_ONLY_MODE (valves self) && is_write_operation op.

Definition is_ok {A} (r : result A) : bool :=
  match r with
  | Ok _ => true
  | Raise _ => false
  end.

(** The raw argument payload of the pass-through, when there is one, parses. *)
Definition arguments_parse (env : Env) (op : operation) : bool :=
  match op with
  | CallMcpTool _ arguments => is_ok (parse_arguments env arguments)
  | _ => true
  end.

(** The [ArgumentError] payload of [call_mcp_tool] for a parse failure [e]. *)
Definition argument_error (e : exn) : string :=
  Json.dumps (PDict [("error", PStr ("Invalid JSON arguments: " ++ exn_msg e))]).

(** The library code raises nothing outside [Exception], and [json.loads]
    fails with [JSONDecodeError] only. *)
Definition well_behaved (env : Env) : Prop :=
  (forall sent req e, post env sent req = Raise e -> is_Exception e = true)
  /\ (forall sent req r e,
         post env sent req = Ok r -> json r = Raise e -> is_Exception e = true)
  /\ (forall s e, json_loads env s = Raise e -> is_JSONDecodeError e = true).

(** The contexts on which the resolver falls back to the defaults: a falsy
    context, or a mapping whose "valves" entry is absent, [None], or neither
    a [UserValves] instance nor a mapping. *)
Definition falls_back (__user__ : user_ctx) : bool :=
  negb (user_truthy __user__)
  || match user_get_valves __user__ with
     | Ok (Plain (PDict _)) => false
     | Ok (Plain _) => true
     | Ok (Typed _) => false
     | Raise _ => false
     end.

(** The contexts on which the resolver does not raise: those on which it
    falls back, a mapping whose "valves" entry is a [UserValves] instance,
    and a mapping whose "valves" entry is a mapping the constructor of
    [UserValves] accepts. *)
Definition resolvable (env : Env) (__user__ : user_ctx) : bool :=
  negb (user_truthy __user__)
  || match user_get_valves __user__ with
     | Ok (Plain (PDict d)) => is_ok (UserValves_init env d)
     | Ok _ => true
     | Raise _ => false
     end.

(** The requests of one handshake *)
Definition init_request (self : Tools) (uv : UserValves) : request :=
  mkRequest (MCP_SERVER_URL (valves self)) (_get_headers self uv None)
            (init_payload self) (Z.max 30 (REQUEST_TIMEOUT uv / 4)).

Definition notify_request (self : Tools) (uv : UserValves)
           (session_id : option string) : request :=
  mkRequest (MCP_SERVER_URL (valves self)) (_get_headers self uv session_id)
            notify_payload 10.

Definition call_request (self : Tools) (uv : UserValves)
           (session_id : option string) (tool_name : string) (arguments : pyval)
  : request :=
  mkRequest (MCP_SERVER_URL (valves self)) (_get_headers self uv session_id)
            (call_payload tool_name arguments) (REQUEST_TIMEOUT uv).

Definition list_request (self : Tools) (uv : UserValves)
           (session_id : option string) : request :=
  mkRequest (MCP_SERVER_URL (valves self)) (_get_headers self uv session_id)
            list_payload 60.

(** *** Normalization as the specification words it *)

(** The "type" entry of an item is the string [ty]. *)
Definition has_type (d : dict) (ty : string) : bool :=
  match dict_lookup "type" d with
  | Some v => eq_str v ty
  | None => false
  end.

(** What one content item contributes: its text, a resource placeholder, or
    nothing. *)
Definition item_piece (env : Env) (item : pyval) : option string :=
  match item with
  | PDict d =>
      if has_type d "text"
      then match dict_lookup "text" d with
           | Some (PStr t) => Some t
           | _ => Some EmptyString
           end
      else if has_type d "resource"
      then match dict_lookup "resource" d with
           | Some (PDict r) =>
               match dict_lookup "uri" r with
               | Some uri => Some ("[Resource: " ++ py_str env uri ++ "]")
               | None => Some "[Resource: unknown]"
               end
           | _ => Some "[Resource: unknown]"
           end
      else None
  | _ => None
  end.

Fixpoint pieces (env : Env) (content : list pyval) : list string :=
  match content with
  | [] => []
  | item :: rest =>
      match item_piece env item with
      | Some p => p :: pieces env rest
      | None => pieces env rest
      end
  end.

Definition normalize_spec (env : Env) (data : pyval) (content : list pyval)
  : string :=
  match pieces env content with
  | [] => Json.dumps data
  | ps => PyString.join newline ps
  end.

(** A content item as the data model has it: a mapping whose text, for a
    text item, is a string when present, and whose resource, for a resource
    item, is a mapping when present. *)
Definition item_ok (item : pyval) : bool :=
  match item with
  | PDict d =>
      if has_type d "text"
      then match dict_lookup "text" d with
           | Some (PStr _) | None => true
           | Some _ => false
           end
      else if has_type d "resource"
      then match dict_lookup "resource" d with
           | Some (PDict _) | None => true
           | Some _ => false
           end
      else true
  | _ => false
  end.

(** The content of a response body: [result.content], the empty list when
    either level is absent; [None] when a level has another type. *)
Definition content_of (body : dict) : option (list pyval) :=
  match dict_lookup "result" body with
  | None => Some []
  | Some (PDict r) =>
      match dict_lookup "content" r with
      | None => Some []
      | Some (PList items) => Some items
      | Some _ => None
      end
  | Some _ => None
  end.

(** *** Discovery as the specification words it *)

Definition tool_name (tool : pyval) : string :=
  match tool with
  | PDict d =>
      match dict_lookup "name" d with
      | Some (PStr n) => n
      | _ => EmptyString
      end
  | _ => EmptyString
  end.

Definition retained (self : Tools) (tool : pyval) : bool :=
  let name := tool_name tool in
  PyString.startswith name "jira_"
  && (match enabled_list self with
      | [] => true
      | allowed => existsb (String.eqb name) allowed
      end)
  && negb (READ_ONLY_MODE (valves self) && _is_write_tool name).

Definition reported (tool : pyval) : pyval :=
  match tool with
  | PDict d =>
      PDict [("name", PStr (tool_name tool));
             ("description",
              match dict_lookup "description" d with
              | Some x => x
              | None => PStr EmptyString
              end);
             ("input_schema",
              match dict_lookup "inputSchema" d with
              | Some x => x
              | None => PDict []
              end)]
  | _ => PNone
  end.

(** A tool record: a mapping whose name is a string when present. *)
Definition tool_ok (tool : pyval) : bool :=
  match tool with
  | PDict d =>
      match dict_lookup "name" d with
      | Some (PStr _) | None => true
      | Some _ => false
      end
  | _ => false
  end.

Definition tools_of (body : dict) : option (list pyval) :=
  match dict_lookup "result" body with
  | None => Some []
  | Some (PDict r) =>
      match dict_lookup "tools" r with
      | None => Some []
      | Some (PList items) => Some items
      | Some _ => None
      end
  | Some _ => None
  end.

(** The allow-list as the description of the ENABLED_TOOLS setting words
    it: the comma-separated names of the setting, the whitespace around a
    name apart; a blank piece names nothing, and a setting without names
    allows every tool. *)
Definition allow_list_names (setting name : string) : bool :=
  existsb (fun piece => str_truthy (strip piece) && String.eqb name (strip piece))
          (split "," setting).

Definition allow_list_is_empty (setting : string) : bool :=
  forallb (fun piece => negb (str_truthy (strip piece))) (split "," setting).

(** A listed tool is reported by discovery. *)
Definition listed (self : Tools) (tool : pyval) : bool :=
  let name := tool_name tool in
  let setting := ENABLED_TOOLS (valves self) in
  PyString.startswith name "jira_"
  && (allow_list_is_empty setting || allow_list_names setting name)
  && negb (READ_ONLY_MODE (valves self) && _is_write_tool name).

(** *** A concrete environment for closed examples *)

Module Sample.

Definition connection_refused : exn :=
  mkExn RequestException "Connection refused".

(** A server that answers the [n]-th posted request with the [n]-th entry of
    a script, and refuses the connection once the script is used up. *)
Definition scripted (script : list (result response))
  : list request -> request -> result response :=
  fun sent _ => nth (List.length sent) script (Raise connection_refused).

(** [json.loads] on the two inputs the examples use; any other input is
    reported as undecodable. *)
Definition loads (s : string) : result pyval :=
  if String.eqb s "{}" then Ok (PDict [])
  else if String.eqb s "{oops"
  then Raise (mkExn JSONDecodeError
    "Expecting property name enclosed in double quotes: line 1 column 2 (char 1)")
  else Raise (mkExn JSONDecodeError "Expecting value: line 1 column 1 (char 0)").

Definition field_error (field expected : string) : exn :=
  mkExn ValidationError
        ("1 validation error for UserValves: " ++ field
         ++ ": Input should be a valid " ++ expected).

Definition str_field (field : string) (d : dict) (default : string)
  : result string :=
  match dict_lookup field d with
  | None => Ok default
  | Some (PStr s) => Ok s
  | Some _ => Raise (field_error field "string")
  end.

Definition int_field (field : string) (d : dict) (default : Z) : result Z :=
  match dict_lookup field d with
  | None => Ok default
  | Some (PInt n) => Ok n
  | Some _ => Raise (field_error field "integer")
  end.

(** A constructor of [UserValves] that takes a field of the declared type as
    it is, the class default for a missing field, and rejects any other
    value.  (pydantic also converts some values of other types; a string
    that is no number is rejected for an [int] field by every version.) *)
Definition UserValves_strict (d : dict) : result UserValves :=
  rbind (str_field "LITELLM_API_KEY" d "") (fun key =>
  rbind (str_field "JIRA_PAT" d "") (fun pat =>
  rbind (int_field "REQUEST_TIMEOUT" d 120) (fun timeout =>
  Ok (mkUserValves key pat timeout)))).

(** [repr] for values whose strings are printable ASCII without quotes and
    backslashes. *)
Fixpoint repr (v : pyval) : string :=
  match v with
  | PNone => "None"
  | PBool true => "True"
  | PBool false => "False"
  | PInt n => str_of_Z n
  | PStr s => "'" ++ s ++ "'"
  | PList items => "[" ++ PyString.join ", " (map repr items) ++ "]"
  | PDict entries =>
      "{" ++ PyString.join ", "
               (map (fun kv => "'" ++ fst kv ++ "': " ++ repr (snd kv)) entries)
      ++ "}"
  end.

Definition env_of (script : list (result response)) : Env :=
  mkEnv (scripted script) loads UserValves_strict repr.

Definition no_headers : string -> option string := fun _ => None.

Definition session_header (sid : string) : string -> option string :=
  fun name => if String.eqb name "Mcp-Session-Id" then Some sid else None.

(** A 200 response with a JSON body *)
Definition ok_response (hdr : string -> option string) (body : pyval) : response :=
  mkResponse 200 (Json.dumps body) hdr (Ok body).

Definition init_ok (hdr : string -> option string) : result response :=
  Ok (ok_response hdr
        (PDict [("jsonrpc", PStr "2.0"); ("id", PInt 1);
                ("result", PDict [("protocolVersion", PStr "2024-11-05")])])).

Definition accepted : result response :=
  Ok (mkResponse 202 EmptyString no_headers
                 (Raise (mkExn JSONDecodeError
                               "Expecting value: line 1 column 1 (char 0)"))).

Definition server_error : result response :=
  Ok (mkResponse 500 "Internal Server Error" no_headers
                 (Raise (mkExn JSONDecodeError
                               "Expecting value: line 1 column 1 (char 0)"))).

(** The initialize request is accepted with session "s1"; the notification
    is answered with HTTP 500. *)
Definition env_notify_500 : Env := env_of [init_ok (session_header "s1"); server_error].

(** The initialize request is accepted with session "s1"; the notification
    POST fails at the transport. *)
Definition env_notify_refused : Env :=
  env_of [init_ok (session_header "s1"); Raise connection_refused].

(** The initialize response carries no session header. *)
Definition env_no_session : Env := env_of [init_ok no_headers; accepted].

Definition text_item (t : string) : pyval :=
  PDict [("type", PStr "text"); ("text", PStr t)].

Definition resource_item (uri : string) : pyval :=
  PDict [("type", PStr "resource"); ("resource", PDict [("uri", PStr uri)])].

Definition content_body (content : list pyval) : dict :=
  [("jsonrpc", PStr "2.0"); ("id", PInt 3);
   ("result", PDict [("content", PList content)])].

(** A handshake with session "s1", then a tools/call answer with [content]. *)
Definition env_content (content : list pyval) : Env :=
  env_of [init_ok (session_header "s1"); accepted;
          Ok (ok_response no_headers (PDict (content_body content)))].

Definition search_tool : pyval :=
  PDict [("name", PStr "jira_search");
         ("description", PStr "Search issues with JQL");
         ("inputSchema", PDict [("type", PStr "object")])].

Definition delete_tool : pyval :=
  PDict [("name", PStr "jira_delete_issue"); ("description", PStr "Delete an issue")].

Definition confluence_tool : pyval :=
  PDict [("name", PStr "confluence_search")].

Definition tools_body : dict :=
  [("jsonrpc", PStr "2.0"); ("id", PInt 2);
   ("result", PDict [("tools", PList [search_tool; delete_tool; confluence_tool])])].

(** A handshake with session "s1", then a tools/list answer with three tools. *)
Definition env_tools : Env :=
  env_of [init_ok (session_header "s1"); accepted;
          Ok (ok_response no_headers (PDict tools_body))].

(** A script entry raises, directly or on decoding, below [Exception] only. *)
Definition entry_ok (x : result response) : bool :=
  match x with
  | Ok r =>
      match json r with
      | Ok _ => true
      | Raise e => is_Exception e
      end
  | Raise e => is_Exception e
  end.

(** A caller context with a loosely-typed configuration *)
Definition loose_ctx : user_ctx :=
  UserDict [("id", Plain (PStr "u-1"));
            ("valves", Plain (PDict [("JIRA_PAT", PStr "pat-1")]))].

(** A caller context whose configuration has a timeout that is no number *)
Definition bad_timeout_ctx : user_ctx :=
  UserDict [("valves", Plain (PDict [("REQUEST_TIMEOUT", PStr "soon")]))].

(** Credentials with a backend token *)
Definition alice : UserValves := mkUserValves "sk-1" "pat-1" 120.

Definition alice_ctx : user_ctx := UserDict [("valves", Typed alice)].

(** A connector with the read-only policy switched off *)
Definition writable : Tools :=
  mkTools (mkValves "https://proxy.example/mcp/" "jira" "" false)
          (mkUserValves "" "" 120)
          "2024-11-05" "OpenWebUI-MCP-Jira" "1.2.0".

Definition get_issue_tool : pyval :=
  PDict [("name", PStr "jira_get_issue"); ("description", PStr "Get an issue")].

(** A connector with an allow-list of two names and the read-only policy
    switched off, and the same with the policy switched on *)
Definition allowing : Tools :=
  mkTools (mkValves "https://proxy.example/mcp/" "jira"
                    " jira_delete_issue ,, jira_get_issue" false)
          (mkUserValves "" "" 120)
          "2024-11-05" "OpenWebUI-MCP-Jira" "1.2.0".

Definition allowing_read_only : Tools :=
  mkTools (mkValves "https://proxy.example/mcp/" "jira"
                    " jira_delete_issue ,, jira_get_issue" true)
          (mkUserValves "" "" 120)
          "2024-11-05" "OpenWebUI-MCP-Jira" "1.2.0".

Definition four_tools_body : dict :=
  [("jsonrpc", PStr "2.0"); ("id", PInt 2);
   ("result",
    PDict [("tools",
            PList [search_tool; delete_tool; confluence_tool; get_issue_tool])])].

(** A handshake with session "s1", then a tools/list answer with four tools. *)
Definition env_four_tools : Env :=
  env_of [init_ok (session_header "s1"); accepted;
          Ok (ok_response no_headers (PDict four_tools_body))].

(** An argument string nested deeper than the decoder recurses *)
Definition deep_brackets : string := repeat_string "[" 1100.

Definition recursion_error : exn :=
  mkExn RecursionError
        "maximum recursion depth exceeded while decoding a JSON array from a unicode string".

(** [json.loads] as [loads], and on [deep_brackets] the recursion error *)
Definition loads_deep (s : string) : result pyval :=
  if String.eqb s deep_brackets then Raise recursion_error else loads s.

Definition env_deep : Env := mkEnv (scripted []) loads_deep UserValves_strict repr.

End Sample.
(** ** Reasoning about operations *)

(** Every exception an operation (a result) can raise derives from
    [Exception]. *)
Definition raises_Exception {A} (c : M A) : Prop :=
  forall tr e tr', c tr = (Raise e, tr') -> is_Exception e = true.

Definition result_raises_Exception {A} (r : result A) : Prop :=
  forall e, r = Raise e -> is_Exception e = true.

(** ** Definitions used by the further properties *)

(** The error payload [json.dumps({"error": v})] *)
Definition error_payload (v : pyval) : string :=
  Json.dumps (PDict [("error", v)]).

(** The payload of [_call_tool] for a timeout *)
Definition timeout_payload (uv : UserValves) : string :=
  error_payload
    (PStr ("Request timeout after " ++ str_of_Z (REQUEST_TIMEOUT uv)
           ++ "s - try increasing REQUEST_TIMEOUT in user settings")).

(** The connector with another read-only flag, and with another allow-list *)
Definition set_read_only (self : Tools) (flag : bool) : Tools :=
  mkTools (mkValves (MCP_SERVER_URL (valves self)) (MCP_SERVER_GROUP (valves self))
                    (ENABLED_TOOLS (valves self)) flag)
          (user_valves self) (protocol_version self) (client_name self)
          (client_version self).

Definition set_enabled_tools (self : Tools) (enabled : string) : Tools :=
  mkTools (mkValves (MCP_SERVER_URL (valves self)) (MCP_SERVER_GROUP (valves self))
                    enabled (READ_ONLY_MODE (valves self)))
          (user_valves self) (protocol_version self) (client_name self)
          (client_version self).

(** A request goes to the configured endpoint with the routing group and the
    caller's backend token in its headers. *)
Definition carries_credentials (self : Tools) (uv : UserValves) (req : request)
  : Prop :=
  req_url req = MCP_SERVER_URL (valves self)
  /\ dict_lookup "x-mcp-servers" (req_headers req)
     = Some (MCP_SERVER_GROUP (valves self))
  /\ dict_lookup "x-mcp-jira-authorization" (req_headers req)
     = Some ("Token " ++ JIRA_PAT uv).

(** The third request of an operation: tools/list for discovery, tools/call
    for the others. *)
Definition is_third_request (self : Tools) (uv : UserValves)
           (sid : option string) (req : request) : Prop :=
  req = list_request self uv sid
  \/ exists name args, req = call_request self uv sid name args.

Module Fixtures.

Import Sample.

Definition timed_out : exn := mkExn Timeout "Read timed out. (read timeout=30)".

Definition interrupted : exn := mkExn KeyboardInterrupt "".

Definition rpc_error : pyval :=
  PDict [("code", PInt (-32602)); ("message", PStr "Issue does not exist")].

Definition error_response (err : pyval) : result response :=
  Ok (ok_response no_headers
        (PDict [("jsonrpc", PStr "2.0"); ("id", PInt 3); ("error", err)])).

Definition started : list (result response) :=
  [init_ok (session_header "s1"); accepted].

(** The initialize request is answered with HTTP 500. *)
Definition env_init_500 : Env := env_of [server_error].

(** The initialize request is answered with a JSON-RPC error. *)
Definition env_init_error : Env := env_of [error_response rpc_error].

(** The third request is answered with HTTP 500. *)
Definition env_third_500 : Env := env_of (started ++ [server_error]).

(** The third request is answered with a JSON-RPC error. *)
Definition env_third_error (err : pyval) : Env :=
  env_of (started ++ [error_response err]).

(** The third request raises. *)
Definition env_third_raises (e : exn) : Env := env_of (started ++ [Raise e]).

(** The session header of the initialize response is the empty string. *)
Definition env_empty_session : Env := env_of [init_ok (session_header ""); accepted].

Definition not_json : exn :=
  mkExn JSONDecodeError "Expecting value: line 1 column 1 (char 0)".

(** The third request is answered with status 200 and an HTML page. *)
Definition env_third_html : Env :=
  env_of (started
          ++ [Ok (mkResponse 200 "<html>Bad gateway</html>" no_headers
                             (Raise not_json))]).

Definition get_issue : operation := GetIssue "PROJ-1" "".

Definition get_issue_arguments : pyval := PDict [("issue_key", PStr "PROJ-1")].

End Fixtures.

Ltac unfold_operation :=
  unfold run, discover_jira_tools, jira_search, jira_get_issue,
    jira_get_all_projects, jira_get_project_issues, jira_get_transitions,
    jira_get_agile_boards, jira_get_sprints_from_board, jira_get_sprint_issues,
    jira_get_worklog, jira_get_user_profile, jira_search_fields,
    jira_get_project_versions, jira_get_board_issues, jira_get_link_types,
    jira_create_issue, jira_update_issue, jira_transition_issue,
    jira_add_comment, jira_add_worklog, jira_link_to_epic,
    jira_create_issue_link, jira_delete_issue, call_mcp_tool.

Create HintDb pyexn.

(** * Properties *)

Section Monad_facts.

Context {A B : Type}.

Lemma bind_ok (c : M A) (k : A -> M B) tr a tr' :
  c tr = (Ok a, tr') -> bind c k tr = k a tr'.
Proof. intros H. unfold bind. now rewrite H. Qed.

Lemma bind_raise (c : M A) (k : A -> M B) tr e tr' :
  c tr = (Raise e, tr') -> bind c k tr = (Raise e, tr').
Proof. intros H. unfold bind. now rewrite H. Qed.

Lemma bind_lift_ok (r : result A) (k : A -> M B) tr a :
  r = Ok a -> bind (lift r) k tr = k a tr.
Proof. intros ->. reflexivity. Qed.

Lemma bind_lift_raise (r : result A) (k : A -> M B) tr e :
  r = Raise e -> bind (lift r) k tr = (Raise e, tr).
Proof. intros ->. reflexivity. Qed.

Lemma try_except_ok (c : M A) h tr a tr' :
  c tr = (Ok a, tr') -> try_except c h tr = (Ok a, tr').
Proof. intros H. unfold try_except. now rewrite H. Qed.

Lemma try_except_raise (c : M A) h tr e tr' :
  c tr = (Raise e, tr') -> try_except c h tr = h e tr'.
Proof. intros H. unfold try_except. now rewrite H. Qed.

End Monad_facts.

Lemma bind_post_ok {B} env req (k : response -> M B) tr r :
  post env tr req = Ok r ->
  bind (requests_post env req) k tr = k r (tr ++ [req])%list.
Proof. intros H. unfold bind, requests_post. now rewrite H. Qed.

Lemma bind_post_raise {B} env req (k : response -> M B) tr e :
  post env tr req = Raise e ->
  bind (requests_post env req) k tr = (Raise e, (tr ++ [req])%list).
Proof. intros H. unfold bind, requests_post. now rewrite H. Qed.

(** *** The handshake *)

Lemma handshake_unfold env self uv tr :
  _handshake env self uv tr =
  bind (requests_post env (init_request self uv))
       (fun response =>
          if negb (status_code response =? 200)
          then raise (mkExn PlainException
                            ("HTTP " ++ str_of_Z (status_code response) ++ ": "
                             ++ text response))
          else
            bind (lift (json response)) (fun data =>
            bind (lift (contains_key "error" data)) (fun has_error =>
            if has_error : bool
            then bind (lift (getitem data "error")) (fun err =>
                 raise (mkExn PlainException ("MCP Error: " ++ py_str env err)))
            else
              bind (requests_post env
                      (notify_request self uv
                         (headers_get response "Mcp-Session-Id")))
                   (fun _ => ret (headers_get response "Mcp-Session-Id")))))
       tr.
Proof. reflexivity. Qed.

(** The first request a handshake posts is the initialize request. *)
Lemma handshake_posts_init env self uv tr :
  exists rest,
    snd (_handshake env self uv tr) = (tr ++ init_request self uv :: rest)%list.
Proof.
  rewrite handshake_unfold. unfold bind at 1, requests_post at 1.
  destruct (post env tr (init_request self uv)) as [r | e]; [| now exists []].
  destruct (negb (status_code r =? 200)); [now exists [] |].
  unfold bind at 1, lift at 1.
  destruct (json r) as [data | e]; [| now exists []].
  unfold bind at 1, lift at 1.
  destruct (contains_key "error" data) as [[|] | e]; [| | now exists []].
  - unfold bind, lift, raise.
    destruct (getitem data "error"); now exists [].
  - unfold bind, requests_post, ret.
    exists [notify_request self uv (headers_get r "Mcp-Session-Id")].
    destruct (post env _ _); cbn [snd]; now rewrite <- app_assoc.
Qed.

(** After an accepted initialize request the handshake posts the
    notification, and its result is decided by whether that post raises. *)
Lemma handshake_after_init env self uv tr r data :
  post env tr (init_request self uv) = Ok r ->
  status_code r = 200 ->
  json r = Ok data ->
  contains_key "error" data = Ok false ->
  let sid := headers_get r "Mcp-Session-Id" in
  let sent := (tr ++ [init_request self uv; notify_request self uv sid])%list in
  _handshake env self uv tr =
  match post env (tr ++ [init_request self uv])%list (notify_request self uv sid) with
  | Ok _ => (Ok sid, sent)
  | Raise e => (Raise e, sent)
  end.
Proof.
  intros Hpost Hstatus Hjson Herr sid sent.
  rewrite handshake_unfold, (bind_post_ok _ _ _ _ _ Hpost), Hstatus.
  cbn [Z.eqb Pos.eqb negb].
  rewrite (bind_lift_ok _ _ _ _ Hjson), (bind_lift_ok _ _ _ _ Herr).
  unfold bind, requests_post, ret. fold sid.
  subst sent. rewrite <- app_assoc. cbn [app].
  now destruct (post env _ _).
Qed.

(** C4.  The initialize POST of every handshake carries the timeout
    [max(30, t // 4)] for the configured timeout [t]: 30 for 120, 30 for 20
    (the floor), 100 for 400. *)
Theorem C4_handshake_timeout :
  (forall env self uv tr,
      exists init rest,
        snd (_handshake env self uv tr) = (tr ++ init :: rest)%list
        /\ req_json init = init_payload self
        /\ req_timeout init = Z.max 30 (REQUEST_TIMEOUT uv / 4))
  /\ (forall key pat, handshake_timeout (mkUserValves key pat 120) = 30)
  /\ (forall key pat, handshake_timeout (mkUserValves key pat 20) = 30)
  /\ (forall key pat, handshake_timeout (mkUserValves key pat 400) = 100).
Proof.
  split; [| repeat split].
  intros env self uv tr.
  destruct (handshake_posts_init env self uv tr) as [rest Hrest].
  exists (init_request self uv), rest. now repeat split.
Qed.

(** *** The read-only gate *)

Lemma gate_of_pass_through env self name arguments ctx tr :
  READ_ONLY_MODE (valves self) = true ->
  _is_write_tool name = true ->
  call_mcp_tool env self name arguments ctx tr =
  (Ok (_read_only_message ("execute '" ++ name ++ "'")), tr).
Proof.
  intros Hro Hw. unfold call_mcp_tool. now rewrite Hro, Hw.
Qed.

(** C9.  In [call_mcp_tool] the read-only gate comes first: for a write-classified
    tool name under the read-only flag the denial is returned whatever the
    argument payload and the caller context are (malformed JSON, absent
    token, a context the resolver rejects), and nothing is posted. *)
Theorem C9_gate_before_credentials_and_parsing
        env self name (arguments : pyval) (ctx : user_ctx) tr :
  READ_ONLY_MODE (valves self) = true ->
  _is_write_tool name = true ->
  call_mcp_tool env self name arguments ctx tr =
  (Ok (_read_only_message ("execute '" ++ name ++ "'")), tr).
Proof. exact (gate_of_pass_through env self name arguments ctx tr). Qed.

Lemma C9_witness :
  READ_ONLY_MODE (valves Tools_init) = true
  /\ _is_write_tool "jira_delete_issue" = true
  /\ is_ok (json_loads (Sample.env_of []) "{oops") = false
  /\ is_ok (_get_user_valves (Sample.env_of []) Tools_init
              (UserOther (PList [PInt 1]))) = false
  /\ call_mcp_tool (Sample.env_of []) Tools_init "jira_delete_issue"
                   (PStr "{oops") (UserOther (PList [PInt 1])) [] =
     (Ok (_read_only_message "execute 'jira_delete_issue'"), []).
Proof.
  do 4 (split; [reflexivity |]).
  apply (C9_gate_before_credentials_and_parsing
           (Sample.env_of []) Tools_init "jira_delete_issue");
    reflexivity.
Defined.

Lemma prefix_empty q : String.prefix EmptyString q = true.
Proof. now destruct q. Qed.

Lemma prefix_append s q : String.prefix s (s ++ q) = true.
Proof.
  induction s as [| a s IH]; [apply prefix_empty |]. cbn.
  destruct (ascii_dec a a); [exact IH | congruence].
Qed.

Lemma prefix_append_right sub s q :
  String.prefix sub s = true -> String.prefix sub (s ++ q) = true.
Proof.
  revert sub. induction s as [| b s IH]; intros sub H.
  - destruct sub as [| a sub]; [apply prefix_empty | discriminate H].
  - destruct sub as [| a sub]; [reflexivity |]. cbn in *.
    destruct (ascii_dec a b); [now apply IH | discriminate H].
Qed.

Lemma contains_unfold s sub :
  PyString.contains s sub =
  if String.prefix sub s then true
  else match s with
       | EmptyString => false
       | String _ rest => PyString.contains rest sub
       end.
Proof. destruct s; reflexivity. Qed.

Lemma contains_prefix s q : PyString.contains (s ++ q) s = true.
Proof. rewrite contains_unfold. now rewrite prefix_append. Qed.

Lemma contains_append_left p s sub :
  PyString.contains s sub = true -> PyString.contains (p ++ s) sub = true.
Proof.
  intros H. induction p as [| a p IH]; [exact H |].
  cbn [append]. rewrite contains_unfold.
  now destruct (String.prefix sub (String a (p ++ s))).
Qed.

Lemma contains_append_right s q sub :
  PyString.contains s sub = true -> PyString.contains (s ++ q) sub = true.
Proof.
  induction s as [| a s IH]; intros H; rewrite contains_unfold in H.
  - destruct (String.prefix sub EmptyString) eqn:Hp; [| discriminate H].
    pose proof (prefix_append_right sub EmptyString q Hp) as Hq.
    rewrite contains_unfold. now rewrite Hq.
  - destruct (String.prefix sub (String a s)) eqn:Hp.
    + pose proof (prefix_append_right sub (String a s) q Hp) as Hq.
      rewrite contains_unfold. now rewrite Hq.
    + cbn [append]. rewrite contains_unfold.
      destruct (String.prefix sub (String a (s ++ q))); [reflexivity |].
      now apply IH.
Qed.

(** The denial message holds the operation named to it. *)
Lemma read_only_message_names operation :
  PyString.contains (_read_only_message operation) operation = true.
Proof.
  unfold _read_only_message.
  do 5 apply contains_append_left. apply contains_prefix.
Qed.

(** C2.  Under the read-only flag every operation whose tool name is in the
    Write-Tool Set, a dedicated operation or the pass-through called with
    such a name, posts nothing and returns the denial message, spelled out
    here, in which "I cannot" is followed by the action of the operation;
    the message of the pass-through holds the tool name it was called
    with. *)
Theorem C2_read_only_denial env self op ctx tr :
  READ_ONLY_MODE (valves self) = true ->
  is_write_operation op = true ->
  let message :=
    bytes [195; 176; 197; 184; 226; 128; 157; 226; 128; 153]
    ++ " **Read-Only Mode Active**" ++ newline ++ newline
    ++ "I cannot " ++ attempted_action op
    ++ " because the Jira integration is currently in read-only mode. This is a safety setting configured by your administrator."
    ++ newline ++ newline
    ++ "If you need to perform this action, please:" ++ newline
    ++ "1. Contact your administrator to enable write access, or" ++ newline
    ++ "2. Perform this action directly in Jira" in
  run env self op ctx tr = (Ok message, tr)
  /\ PyString.contains message (attempted_action op) = true
  /\ forall name raw,
      op = CallMcpTool name raw -> PyString.contains message name = true.
Proof.
  intros Hro Hw message.
  assert (Hmessage : message = _read_only_message (attempted_action op))
    by reflexivity.
  split; [| split].
  - rewrite Hmessage.
    destruct op; try (vm_compute in Hw; discriminate Hw);
      cbn [run attempted_action].
    all: try (unfold jira_create_issue, jira_update_issue, jira_transition_issue,
              jira_add_comment, jira_add_worklog, jira_link_to_epic,
              jira_create_issue_link, jira_delete_issue;
              rewrite Hro; reflexivity).
    apply gate_of_pass_through; [exact Hro | exact Hw].
  - rewrite Hmessage. apply read_only_message_names.
  - intros name raw ->. subst message. cbn [attempted_action].
    do 5 apply contains_append_left.
    apply contains_append_right, contains_append_left, contains_prefix.
Qed.

Lemma C2_witness :
  READ_ONLY_MODE (valves Tools_init) = true
  /\ is_write_operation (DeleteIssue "PROJ-7") = true
  /\ is_write_operation (CallMcpTool "jira_create_sprint" (PStr "{}")) = true
  /\ run (Sample.env_of []) Tools_init (DeleteIssue "PROJ-7") Sample.alice_ctx [] =
     (Ok (bytes [195; 176; 197; 184; 226; 128; 157; 226; 128; 153]
          ++ " **Read-Only Mode Active**" ++ newline ++ newline
          ++ "I cannot delete issue PROJ-7 because the Jira integration is currently in read-only mode. This is a safety setting configured by your administrator."
          ++ newline ++ newline
          ++ "If you need to perform this action, please:" ++ newline
          ++ "1. Contact your administrator to enable write access, or" ++ newline
          ++ "2. Perform this action directly in Jira"),
      [])
  /\ run (Sample.env_of []) Tools_init
         (CallMcpTool "jira_create_sprint" (PStr "{}")) Sample.alice_ctx [] =
     (Ok (bytes [195; 176; 197; 184; 226; 128; 157; 226; 128; 153]
          ++ " **Read-Only Mode Active**" ++ newline ++ newline
          ++ "I cannot execute 'jira_create_sprint' because the Jira integration is currently in read-only mode. This is a safety setting configured by your administrator."
          ++ newline ++ newline
          ++ "If you need to perform this action, please:" ++ newline
          ++ "1. Contact your administrator to enable write access, or" ++ newline
          ++ "2. Perform this action directly in Jira"),
      []).
Proof.
  do 3 (split; [reflexivity |]). split.
  - exact (proj1 (C2_read_only_denial (Sample.env_of []) Tools_init
                    (DeleteIssue "PROJ-7") Sample.alice_ctx []
                    eq_refl eq_refl)).
  - exact (proj1 (C2_read_only_denial (Sample.env_of []) Tools_init
                    (CallMcpTool "jira_create_sprint" (PStr "{}"))
                    Sample.alice_ctx [] eq_refl eq_refl)).
Defined.

(** *** Headers and the requests after the handshake *)

Lemma headers_without_session self uv :
  dict_lookup "Mcp-Session-Id" (_get_headers self uv None) = None.
Proof.
  unfold _get_headers.
  destruct (str_truthy (LITELLM_API_KEY uv)), (str_truthy (JIRA_PAT uv));
    reflexivity.
Qed.

Lemma headers_with_session self uv sid :
  str_truthy sid = true ->
  dict_lookup "Mcp-Session-Id" (_get_headers self uv (Some sid)) = Some sid.
Proof.
  intros H. unfold _get_headers. rewrite H.
  destruct (str_truthy (LITELLM_API_KEY uv)), (str_truthy (JIRA_PAT uv));
    reflexivity.
Qed.

(** With a token, [_call_tool] after a successful handshake posts exactly
    one more request, the tools/call request. *)
Lemma call_tool_posts_call env self name args uv tr sid tr1 :
  str_truthy (JIRA_PAT uv) = true ->
  _handshake env self uv tr = (Ok sid, tr1) ->
  exists out,
    _call_tool env self name args uv tr =
    (out, (tr1 ++ [call_request self uv sid name args])%list).
Proof.
  intros Hpat Hhs. unfold _call_tool. rewrite Hpat. cbn [negb].
  unfold try_except, _call_tool_try. rewrite (bind_ok _ _ _ _ _ Hhs).
  fold (call_request self uv sid name args).
  unfold bind at 1, requests_post at 1.
  set (sent := (tr1 ++ [call_request self uv sid name args])%list).
  assert (Hexc : forall e, exists out, _call_tool_except uv e sent = (out, sent)).
  { intros e. unfold _call_tool_except, ret, raise.
    destruct (is_Timeout e); [eauto |]. destruct (is_Exception e); eauto. }
  destruct (post env tr1 _) as [r | e]; [| apply Hexc].
  destruct (negb (status_code r =? 200)); [unfold ret; eauto |].
  unfold bind at 1, lift at 1. destruct (json r) as [data | e]; [| apply Hexc].
  unfold bind at 1, lift at 1.
  destruct (contains_key "error" data) as [[|] | e]; [| | apply Hexc].
  - unfold bind at 1, lift at 1.
    destruct (getitem data "error") as [err | e]; [| apply Hexc].
    unfold bind, lift, ret.
    destruct (match err with PDict _ => _ | _ => _ end); [eauto | apply Hexc].
  - unfold lift. destruct (normalize env data); [eauto | apply Hexc].
Qed.

(** When the handshake raises, [_call_tool] posts nothing more and hands the
    exception to its handlers. *)
Lemma call_tool_handshake_raises env self name args uv tr e tr1 :
  str_truthy (JIRA_PAT uv) = true ->
  _handshake env self uv tr = (Raise e, tr1) ->
  _call_tool env self name args uv tr = _call_tool_except uv e tr1.
Proof.
  intros Hpat Hhs. unfold _call_tool. rewrite Hpat. cbn [negb].
  unfold _call_tool_try.
  now rewrite (try_except_raise _ _ _ _ _ (bind_raise _ _ _ _ _ Hhs)).
Qed.

(** Discovery after a successful handshake posts exactly one more request,
    the tools/list request. *)
Lemma discover_posts_list env self uv tr sid tr1 :
  _handshake env self uv tr = (Ok sid, tr1) ->
  exists out,
    try_except (discover_try env self uv) discover_except tr =
    (out, (tr1 ++ [list_request self uv sid])%list).
Proof.
  intros Hhs. unfold try_except, discover_try. rewrite (bind_ok _ _ _ _ _ Hhs).
  fold (list_request self uv sid).
  unfold bind at 1, requests_post at 1.
  set (sent := (tr1 ++ [list_request self uv sid])%list).
  assert (Hexc : forall e, exists out, discover_except e sent = (out, sent)).
  { intros e. unfold discover_except, ret, raise.
    destruct (is_Exception e); eauto. }
  destruct (post env tr1 _) as [r | e]; [| apply Hexc].
  destruct (negb (status_code r =? 200)); [unfold ret; eauto |].
  unfold bind at 1, lift at 1. destruct (json r) as [data | e]; [| apply Hexc].
  unfold bind at 1, lift at 1.
  destruct (contains_key "error" data) as [[|] | e]; [| | apply Hexc].
  - unfold bind, lift, ret.
    destruct (getitem data "error") as [err | e]; [eauto | apply Hexc].
  - unfold lift. destruct (discover_filter self data); [eauto | apply Hexc].
Qed.

(** C6.  After an accepted initialize request the response to the initialized
    notification is not inspected: whatever response comes back, the
    handshake returns the session identifier and [_call_tool] goes on to
    post the tools/call request.  A notification POST that raises is not
    absorbed: the exception leaves the handshake, and [_call_tool] hands it
    to its handlers without posting the tools/call request. *)
Theorem C6_notification_response_not_inspected env self uv tr r data :
  post env tr (init_request self uv) = Ok r ->
  status_code r = 200 ->
  json r = Ok data ->
  contains_key "error" data = Ok false ->
  let sid := headers_get r "Mcp-Session-Id" in
  let notify := notify_request self uv sid in
  let sent := (tr ++ [init_request self uv; notify])%list in
  (forall answer,
      post env (tr ++ [init_request self uv])%list notify = Ok answer ->
      _handshake env self uv tr = (Ok sid, sent)
      /\ forall name args,
          str_truthy (JIRA_PAT uv) = true ->
          exists out,
            _call_tool env self name args uv tr =
            (out, (sent ++ [call_request self uv sid name args])%list))
  /\ (forall e,
         post env (tr ++ [init_request self uv])%list notify = Raise e ->
         _handshake env self uv tr = (Raise e, sent)
         /\ forall name args,
             str_truthy (JIRA_PAT uv) = true ->
             _call_tool env self name args uv tr = _call_tool_except uv e sent).
Proof.
  intros Hpost Hstatus Hjson Herr sid notify sent.
  pose proof (handshake_after_init env self uv tr r data Hpost Hstatus Hjson Herr)
    as Hhs.
  cbv zeta in Hhs. fold sid notify sent in Hhs.
  split.
  - intros answer Hanswer. rewrite Hanswer in Hhs. split; [exact Hhs |].
    intros name args Hpat. now apply call_tool_posts_call.
  - intros e He. rewrite He in Hhs. split; [exact Hhs |].
    intros name args Hpat. now apply call_tool_handshake_raises.
Qed.

Lemma C6_witness :
  post Sample.env_notify_500 [] (init_request Sample.writable Sample.alice) =
  Sample.init_ok (Sample.session_header "s1")
  /\ post Sample.env_notify_500 [init_request Sample.writable Sample.alice]
          (notify_request Sample.writable Sample.alice (Some "s1")) =
     Sample.server_error
  /\ _handshake Sample.env_notify_500 Sample.writable Sample.alice [] =
     (Ok (Some "s1"),
      [init_request Sample.writable Sample.alice;
       notify_request Sample.writable Sample.alice (Some "s1")]).
Proof.
  split; [reflexivity |]. split; [reflexivity |].
  refine (proj1 (proj1 (C6_notification_response_not_inspected
                          Sample.env_notify_500 Sample.writable Sample.alice []
                          _ _ eq_refl eq_refl eq_refl eq_refl) _ eq_refl)).
Defined.

(** C6, as stated, fails: when the notification POST raises, the handshake
    raises instead of returning the session identifier "s1", and the
    operation ends with an error payload without posting tools/call. *)
Lemma C6_counterexample :
  _handshake Sample.env_notify_refused Sample.writable Sample.alice [] =
  (Raise Sample.connection_refused,
   [init_request Sample.writable Sample.alice;
    notify_request Sample.writable Sample.alice (Some "s1")])
  /\ run Sample.env_notify_refused Sample.writable (GetIssue "PROJ-1" "")
         Sample.alice_ctx [] =
     (Ok (Json.dumps (PDict [("error", PStr "Connection refused")])),
      [init_request Sample.writable Sample.alice;
       notify_request Sample.writable Sample.alice (Some "s1")]).
Proof. split; reflexivity. Qed.

(** C10.  An initialize response without the Mcp-Session-Id header does not fail
    the handshake: it returns [None], and the notification, the tools/call
    and the tools/list requests that follow are posted without the
    Mcp-Session-Id header. *)
Theorem C10_session_header_optional env self uv tr r data answer :
  post env tr (init_request self uv) = Ok r ->
  status_code r = 200 ->
  json r = Ok data ->
  contains_key "error" data = Ok false ->
  headers_get r "Mcp-Session-Id" = None ->
  post env (tr ++ [init_request self uv])%list (notify_request self uv None)
  = Ok answer ->
  let sent :=
    (tr ++ [init_request self uv; notify_request self uv None])%list in
  _handshake env self uv tr = (Ok None, sent)
  /\ dict_lookup "Mcp-Session-Id" (req_headers (notify_request self uv None))
     = None
  /\ (forall name args,
         str_truthy (JIRA_PAT uv) = true ->
         exists out,
           _call_tool env self name args uv tr =
           (out, (sent ++ [call_request self uv None name args])%list)
           /\ dict_lookup "Mcp-Session-Id"
                          (req_headers (call_request self uv None name args))
              = None)
  /\ (exists out,
         try_except (discover_try env self uv) discover_except tr =
         (out, (sent ++ [list_request self uv None])%list)
         /\ dict_lookup "Mcp-Session-Id"
                        (req_headers (list_request self uv None))
            = None).
Proof.
  intros Hpost Hstatus Hjson Herr Hnone Hanswer sent.
  assert (Hhs : _handshake env self uv tr = (Ok None, sent)).
  { pose proof (handshake_after_init env self uv tr r data
                  Hpost Hstatus Hjson Herr) as H.
    cbv zeta in H. rewrite Hnone in H. now rewrite Hanswer in H. }
  split; [exact Hhs |].
  split; [apply headers_without_session |].
  split.
  - intros name args Hpat.
    destruct (call_tool_posts_call env self name args uv tr None sent Hpat Hhs)
      as [out Hout].
    exists out. split; [exact Hout | apply headers_without_session].
  - destruct (discover_posts_list env self uv tr None sent Hhs) as [out Hout].
    exists out. split; [exact Hout | apply headers_without_session].
Qed.

Lemma C10_witness :
  post Sample.env_no_session [] (init_request Sample.writable Sample.alice) =
  Sample.init_ok Sample.no_headers
  /\ post Sample.env_no_session [init_request Sample.writable Sample.alice]
          (notify_request Sample.writable Sample.alice None) = Sample.accepted
  /\ _handshake Sample.env_no_session Sample.writable Sample.alice [] =
     (Ok None,
      [init_request Sample.writable Sample.alice;
       notify_request Sample.writable Sample.alice None]).
Proof.
  split; [reflexivity |]. split; [reflexivity |].
  refine (proj1 (C10_session_header_optional
                   Sample.env_no_session Sample.writable Sample.alice []
                   _ _ _ eq_refl eq_refl eq_refl eq_refl eq_refl eq_refl)).
Defined.

(** *** Normalization of a tools/call response *)

Lemma join_of_strings sep ps :
  PyValue.join sep (map PStr ps) = Ok (PyString.join sep ps).
Proof.
  unfold PyValue.join.
  assert (H : forall i, join_from i (map PStr ps) = Ok ps).
  { induction ps as [| p ps IH]; intros i; [reflexivity |].
    cbn [map join_from]. now rewrite IH. }
  now rewrite H.
Qed.

Lemma collect_item_spec env item acc :
  item_ok item = true ->
  collect_item env item acc =
  Ok (acc ++ match item_piece env item with
             | Some p => [PStr p]
             | None => []
             end)%list.
Proof.
  destruct item as [| | | | | d]; try discriminate.
  unfold item_ok, item_piece, collect_item, has_type, get.
  destruct (dict_lookup "type" d) as [ty |]; cbn [rbind eq_str].
  - destruct (eq_str ty "text").
    + destruct (dict_lookup "text" d) as [[| | | t | |] |];
        try discriminate; reflexivity.
    + destruct (eq_str ty "resource"); [| now rewrite app_nil_r].
      destruct (dict_lookup "resource" d) as [[| | | | | res] |];
        try discriminate; intros _; cbn [rbind dict_lookup].
      * now destruct (dict_lookup "uri" res).
      * reflexivity.
  - intros _. now rewrite app_nil_r.
Qed.

Lemma collect_items_spec env items :
  forallb item_ok items = true ->
  forall acc,
    collect_items env items acc = Ok (acc ++ map PStr (pieces env items))%list.
Proof.
  induction items as [| item rest IH]; intros Hok acc; cbn [collect_items].
  - now rewrite app_nil_r.
  - cbn [forallb] in Hok. apply andb_prop in Hok as [Hitem Hrest].
    rewrite (collect_item_spec env item acc Hitem). cbn [rbind pieces].
    rewrite (IH Hrest).
    destruct (item_piece env item); cbn [map];
      [now rewrite <- app_assoc | now rewrite app_nil_r].
Qed.

Lemma normalize_spec_correct env body items :
  content_of body = Some items ->
  forallb item_ok items = true ->
  normalize env (PDict body) = Ok (normalize_spec env (PDict body) items).
Proof.
  intros Hcontent Hok.
  assert (Hiter : rbind (get (PDict body) "result" (PDict [])) (fun result_ =>
                  rbind (get result_ "content" (PList [])) iter) = Ok items).
  { unfold content_of in Hcontent. unfold get. cbn [rbind].
    destruct (dict_lookup "result" body) as [[| | | | | res] |];
      try discriminate; cbn [rbind dict_lookup].
    - destruct (dict_lookup "content" res) as [[| | | | l |] |];
        try discriminate; cbn [rbind iter]; congruence.
    - cbn [iter]. congruence. }
  unfold normalize, normalize_spec.
  destruct (get (PDict body) "result" (PDict [])) as [result_ | e];
    [| discriminate]. cbn [rbind] in *.
  destruct (get result_ "content" (PList [])) as [content | e];
    [| discriminate]. cbn [rbind] in *.
  rewrite Hiter. cbn [rbind].
  rewrite (collect_items_spec env items Hok []). cbn [app rbind].
  destruct (pieces env items) as [| p ps]; [reflexivity |].
  now rewrite <- join_of_strings.
Qed.

(** C5.  [_call_tool] on a tools/call response with status 200 and a body without
    an error entry returns the pieces of [result.content] joined by
    newlines, a piece being the text of a text item, the placeholder with
    the URI of a resource item, and nothing for any other item; without
    pieces it returns the JSON encoding of the whole body. *)
Theorem C5_normalization env self name args uv tr sid tr1 r body items :
  str_truthy (JIRA_PAT uv) = true ->
  _handshake env self uv tr = (Ok sid, tr1) ->
  post env tr1 (call_request self uv sid name args) = Ok r ->
  status_code r = 200 ->
  json r = Ok (PDict body) ->
  dict_has "error" body = false ->
  content_of body = Some items ->
  forallb item_ok items = true ->
  _call_tool env self name args uv tr =
  (Ok (match pieces env items with
       | [] => Json.dumps (PDict body)
       | ps => PyString.join newline ps
       end),
   (tr1 ++ [call_request self uv sid name args])%list).
Proof.
  intros Hpat Hhs Hpost Hstatus Hjson Herr Hcontent Hok.
  unfold _call_tool. rewrite Hpat. cbn [negb].
  apply try_except_ok. unfold _call_tool_try.
  rewrite (bind_ok _ _ _ _ _ Hhs).
  fold (call_request self uv sid name args).
  rewrite (bind_post_ok _ _ _ _ _ Hpost), Hstatus. cbn [Z.eqb Pos.eqb negb].
  rewrite (bind_lift_ok _ _ _ _ Hjson).
  cbn [contains_key]. rewrite Herr.
  rewrite (bind_lift_ok _ _ _ false eq_refl).
  unfold lift. now rewrite (normalize_spec_correct env body items Hcontent Hok).
Qed.

Lemma C5_witness :
  run (Sample.env_content [Sample.text_item "A"; Sample.text_item "B"])
      Sample.writable (GetIssue "PROJ-1" "") Sample.alice_ctx [] =
  (Ok ("A" ++ newline ++ "B"),
   [init_request Sample.writable Sample.alice;
    notify_request Sample.writable Sample.alice (Some "s1");
    call_request Sample.writable Sample.alice (Some "s1") "jira_get_issue"
                 (PDict [("issue_key", PStr "PROJ-1")])])
  /\ fst (run (Sample.env_content [Sample.resource_item "x://y"])
              Sample.writable (GetIssue "PROJ-1" "") Sample.alice_ctx []) =
     Ok "[Resource: x://y]"
  /\ fst (run (Sample.env_content [PDict [("type", PStr "image")]])
              Sample.writable (GetIssue "PROJ-1" "") Sample.alice_ctx []) =
     Ok (Json.dumps
           (PDict (Sample.content_body [PDict [("type", PStr "image")]]))).
Proof.
  split; [| split].
  - exact (C5_normalization
             (Sample.env_content [Sample.text_item "A"; Sample.text_item "B"])
             Sample.writable "jira_get_issue"
             (PDict [("issue_key", PStr "PROJ-1")]) Sample.alice []
             (Some "s1") _ _ _ _
             eq_refl eq_refl eq_refl eq_refl eq_refl eq_refl eq_refl eq_refl).
  - exact (f_equal fst
             (C5_normalization
                (Sample.env_content [Sample.resource_item "x://y"])
                Sample.writable "jira_get_issue"
                (PDict [("issue_key", PStr "PROJ-1")]) Sample.alice []
                (Some "s1") _ _ _ _
                eq_refl eq_refl eq_refl eq_refl eq_refl eq_refl eq_refl eq_refl)).
  - exact (f_equal fst
             (C5_normalization
                (Sample.env_content [PDict [("type", PStr "image")]])
                Sample.writable "jira_get_issue"
                (PDict [("issue_key", PStr "PROJ-1")]) Sample.alice []
                (Some "s1") _ _ _ _
                eq_refl eq_refl eq_refl eq_refl eq_refl eq_refl eq_refl eq_refl)).
Defined.

(** *** Discovery *)

Lemma discover_tool_spec self tool acc :
  tool_ok tool = true ->
  discover_tool self (enabled_list self) tool acc =
  Ok (acc ++ if retained self tool then [reported tool] else [])%list.
Proof.
  destruct tool as [| | | | | d]; try discriminate.
  unfold tool_ok, discover_tool, retained, reported, tool_name, get.
  assert (Hreport :
    rbind match dict_lookup "description" d with
          | Some x => Ok x
          | None => Ok (PStr "")
          end
          (fun description =>
           rbind match dict_lookup "inputSchema" d with
                 | Some x => Ok x
                 | None => Ok (PDict [])
                 end
                 (fun input_schema =>
                  Ok (acc ++ [PDict [("name", PStr (tool_name (PDict d)));
                                     ("description", description);
                                     ("input_schema", input_schema)]])%list))
    = Ok (acc ++ [reported (PDict d)])%list).
  { unfold reported.
    now destruct (dict_lookup "description" d), (dict_lookup "inputSchema" d). }
  unfold reported, tool_name in Hreport.
  destruct (dict_lookup "name" d) as [[| | | n | |] |];
    try discriminate; intros _; cbn [rbind].
  - destruct (PyString.startswith n "jira_"); cbn [negb andb];
      [| now rewrite app_nil_r].
    destruct (enabled_list self) as [| t ts]; cbn [list_truthy andb].
    + destruct (READ_ONLY_MODE (valves self) && _is_write_tool n);
        cbn [negb]; [now rewrite app_nil_r | exact Hreport].
    + destruct (existsb (String.eqb n) (t :: ts)); cbn [negb andb];
        [| now rewrite app_nil_r].
      destruct (READ_ONLY_MODE (valves self) && _is_write_tool n);
        cbn [negb]; [now rewrite app_nil_r | exact Hreport].
  - cbn. now rewrite app_nil_r.
Qed.

Lemma discover_tools_spec self tools :
  forallb tool_ok tools = true ->
  forall acc,
    discover_tools self (enabled_list self) tools acc =
    Ok (acc ++ map reported (filter (retained self) tools))%list.
Proof.
  induction tools as [| tool rest IH]; intros Hok acc; cbn [discover_tools].
  - now rewrite app_nil_r.
  - cbn [forallb] in Hok. apply andb_prop in Hok as [Htool Hrest].
    rewrite (discover_tool_spec self tool acc Htool). cbn [rbind filter].
    rewrite (IH Hrest).
    destruct (retained self tool); cbn [map];
      [now rewrite <- app_assoc | now rewrite app_nil_r].
Qed.

Lemma discover_filter_spec self body tools :
  tools_of body = Some tools ->
  forallb tool_ok tools = true ->
  discover_filter self (PDict body) =
  Ok (Json.dumps_indent2 (PList (map reported (filter (retained self) tools)))).
Proof.
  intros Htools Hok.
  assert (Hiter : rbind (get (PDict body) "result" (PDict [])) (fun r =>
                  rbind (get r "tools" (PList [])) iter) = Ok tools).
  { unfold tools_of in Htools. unfold get.
    destruct (dict_lookup "result" body) as [[| | | | | res] |];
      try discriminate; cbn [rbind dict_lookup].
    - destruct (dict_lookup "tools" res) as [[| | | | l |] |];
        try discriminate; cbn [rbind iter]; congruence.
    - cbn [iter]. congruence. }
  unfold discover_filter.
  destruct (get (PDict body) "result" (PDict [])) as [r | e];
    [| discriminate]. cbn [rbind] in *.
  destruct (get r "tools" (PList [])) as [ts | e];
    [| discriminate]. cbn [rbind] in *.
  rewrite Hiter. cbn [rbind].
  now rewrite (discover_tools_spec self tools Hok []).
Qed.

Lemma enabled_list_names self name :
  existsb (String.eqb name) (enabled_list self)
  = allow_list_names (ENABLED_TOOLS (valves self)) name.
Proof.
  unfold enabled_list, allow_list_names.
  induction (split "," (ENABLED_TOOLS (valves self))) as [| piece rest IH];
    [reflexivity |].
  cbn [filter existsb].
  destruct (str_truthy (strip piece)); cbn [map existsb andb]; now rewrite IH.
Qed.

Lemma enabled_list_is_empty self :
  allow_list_is_empty (ENABLED_TOOLS (valves self))
  = match enabled_list self with
    | [] => true
    | _ => false
    end.
Proof.
  unfold enabled_list, allow_list_is_empty.
  induction (split "," (ENABLED_TOOLS (valves self))) as [| piece rest IH];
    [reflexivity |].
  cbn [filter forallb].
  destruct (str_truthy (strip piece)); cbn [map negb andb]; [reflexivity | exact IH].
Qed.

(** The filter of the discovery loop is the listing rule. *)
Lemma retained_listed self tool : retained self tool = listed self tool.
Proof.
  unfold retained, listed.
  rewrite enabled_list_is_empty, <- enabled_list_names.
  now destruct (enabled_list self).
Qed.

(** C8.  For a tools/list response with status 200 and a body without an error
    entry, discovery returns, as JSON indented by two spaces, the name,
    description and input schema of exactly the listed tools whose name
    starts with "jira_", is one of the comma-separated names of
    ENABLED_TOOLS when that setting holds a name, and is not in the
    Write-Tool Set when the read-only flag is set, in the order of the
    listing. *)
Theorem C8_discovery_filter env self ctx uv tr sid tr1 r body tools :
  _get_user_valves env self ctx = Ok uv ->
  str_truthy (JIRA_PAT uv) = true ->
  _handshake env self uv tr = (Ok sid, tr1) ->
  post env tr1 (list_request self uv sid) = Ok r ->
  status_code r = 200 ->
  json r = Ok (PDict body) ->
  dict_has "error" body = false ->
  tools_of body = Some tools ->
  forallb tool_ok tools = true ->
  discover_jira_tools env self ctx tr =
  (Ok (Json.dumps_indent2
         (PList (map reported
                     (filter (fun tool =>
                                PyString.startswith (tool_name tool) "jira_"
                                && (allow_list_is_empty (ENABLED_TOOLS (valves self))
                                    || allow_list_names (ENABLED_TOOLS (valves self))
                                                        (tool_name tool))
                                && negb (READ_ONLY_MODE (valves self)
                                         && _is_write_tool (tool_name tool)))
                             tools)))),
   (tr1 ++ [list_request self uv sid])%list).
Proof.
  intros Huv Hpat Hhs Hpost Hstatus Hjson Herr Htools Hok.
  unfold discover_jira_tools.
  rewrite (bind_lift_ok _ _ _ _ Huv), Hpat. cbn [negb].
  apply try_except_ok. unfold discover_try.
  rewrite (bind_ok _ _ _ _ _ Hhs).
  fold (list_request self uv sid).
  rewrite (bind_post_ok _ _ _ _ _ Hpost), Hstatus. cbn [Z.eqb Pos.eqb negb].
  rewrite (bind_lift_ok _ _ _ _ Hjson).
  cbn [contains_key]. rewrite Herr.
  rewrite (bind_lift_ok _ _ _ false eq_refl).
  unfold lift. rewrite (discover_filter_spec self body tools Htools Hok).
  now rewrite (filter_ext _ _ (retained_listed self)).
Qed.

Lemma C8_witness :
  run Sample.env_tools Tools_init Discover Sample.alice_ctx [] =
  (Ok (Json.dumps_indent2
         (PList [PDict [("name", PStr "jira_search");
                        ("description", PStr "Search issues with JQL");
                        ("input_schema", PDict [("type", PStr "object")])]])),
   [init_request Tools_init Sample.alice;
    notify_request Tools_init Sample.alice (Some "s1");
    list_request Tools_init Sample.alice (Some "s1")])
  /\ fst (run Sample.env_tools Sample.writable Discover Sample.alice_ctx []) =
     Ok (Json.dumps_indent2
           (PList [PDict [("name", PStr "jira_search");
                          ("description", PStr "Search issues with JQL");
                          ("input_schema", PDict [("type", PStr "object")])];
                   PDict [("name", PStr "jira_delete_issue");
                          ("description", PStr "Delete an issue");
                          ("input_schema", PDict [])]]))
  /\ ENABLED_TOOLS (valves Sample.allowing) = " jira_delete_issue ,, jira_get_issue"
  /\ fst (run Sample.env_four_tools Sample.allowing Discover Sample.alice_ctx []) =
     Ok (Json.dumps_indent2
           (PList [PDict [("name", PStr "jira_delete_issue");
                          ("description", PStr "Delete an issue");
                          ("input_schema", PDict [])];
                   PDict [("name", PStr "jira_get_issue");
                          ("description", PStr "Get an issue");
                          ("input_schema", PDict [])]]))
  /\ fst (run Sample.env_four_tools Sample.allowing_read_only Discover
              Sample.alice_ctx []) =
     Ok (Json.dumps_indent2
           (PList [PDict [("name", PStr "jira_get_issue");
                          ("description", PStr "Get an issue");
                          ("input_schema", PDict [])]])).
Proof.
  split; [| split; [| split; [reflexivity | split]]].
  - exact (C8_discovery_filter Sample.env_tools Tools_init Sample.alice_ctx
             Sample.alice [] (Some "s1") _ _ _ _
             eq_refl eq_refl eq_refl eq_refl eq_refl eq_refl eq_refl eq_refl
             eq_refl).
  - exact (f_equal fst
             (C8_discovery_filter Sample.env_tools Sample.writable
                Sample.alice_ctx Sample.alice [] (Some "s1") _ _ _ _
                eq_refl eq_refl eq_refl eq_refl eq_refl eq_refl eq_refl eq_refl
                eq_refl)).
  - exact (f_equal fst
             (C8_discovery_filter Sample.env_four_tools Sample.allowing
                Sample.alice_ctx Sample.alice [] (Some "s1") _ _ _ _
                eq_refl eq_refl eq_refl eq_refl eq_refl eq_refl eq_refl eq_refl
                eq_refl)).
  - exact (f_equal fst
             (C8_discovery_filter Sample.env_four_tools Sample.allowing_read_only
                Sample.alice_ctx Sample.alice [] (Some "s1") _ _ _ _
                eq_refl eq_refl eq_refl eq_refl eq_refl eq_refl eq_refl eq_refl
                eq_refl)).
Defined.

(** *** Operations without a backend token *)


Lemma call_tool_without_token env self name args uv tr :
  str_truthy (JIRA_PAT uv) = false ->
  _call_tool env self name args uv tr = (Ok not_configured, tr).
Proof. intros H. unfold _call_tool. now rewrite H. Qed.

(** Past the gate and the resolver, every operation but discovery is one
    call of [_call_tool] with its tool name. *)
Lemma run_reaches_call_tool env self op ctx uv tr name :
  _get_user_valves env self ctx = Ok uv ->
  denied self op = false ->
  arguments_parse env op = true ->
  tool_name_of op = Some name ->
  exists args, run env self op ctx tr = _call_tool env self name args uv tr.
Proof.
  intros Huv Hgate Hparse Hname. unfold denied in Hgate.
  destruct op; cbn [tool_name_of] in Hname; try discriminate Hname;
    injection Hname as <-; unfold_operation.
  1-14: rewrite (bind_lift_ok _ _ _ _ Huv); eauto.
  1-8: destruct (READ_ONLY_MODE (valves self));
       [discriminate Hgate | rewrite (bind_lift_ok _ _ _ _ Huv); eauto].
  unfold is_write_operation in Hgate. cbn [tool_name_of] in Hgate.
  rewrite Hgate, (bind_lift_ok _ _ _ _ Huv).
  cbn [arguments_parse] in Hparse.
  match goal with
  | |- context [parse_arguments env ?a] =>
      destruct (parse_arguments env a) as [args_dict | e];
        [eauto | discriminate Hparse]
  end.
Qed.




(** *** Malformed arguments of the pass-through *)

(** C7.  When [json.loads] rejects the argument string of [call_mcp_tool],
    nothing is posted; when moreover the read-only gate does not fire for
    the tool name and the resolver returns credentials, the result is the
    payload naming the parse failure if the exception is a
    [JSONDecodeError], and any other exception of [json.loads] is raised to
    the caller. *)
Theorem C7_malformed_arguments env self name s ctx tr e :
  json_loads env s = Raise e ->
  snd (call_mcp_tool env self name (PStr s) ctx tr) = tr
  /\ (forall uv,
         READ_ONLY_MODE (valves self) && _is_write_tool name = false ->
         _get_user_valves env self ctx = Ok uv ->
         call_mcp_tool env self name (PStr s) ctx tr
         = if is_JSONDecodeError e
           then (Ok (Json.dumps
                       (PDict [("error",
                                PStr ("Invalid JSON arguments: " ++ exn_msg e))])),
                 tr)
           else (Raise e, tr)).
Proof.
  intros Hloads. unfold call_mcp_tool.
  destruct (READ_ONLY_MODE (valves self) && _is_write_tool name);
    [split; [reflexivity | discriminate] |].
  cbn [parse_arguments]. rewrite Hloads.
  destruct (_get_user_valves env self ctx) as [uv | e'] eqn:Huv.
  - rewrite (bind_lift_ok _ _ _ uv eq_refl).
    destruct (is_JSONDecodeError e);
      (split; [reflexivity | intros uv' _ _; reflexivity]).
  - split; [reflexivity | intros uv' _ H; discriminate H].
Qed.

Lemma C7_witness :
  json_loads (Sample.env_of []) "{oops" =
  Raise (mkExn JSONDecodeError
    "Expecting property name enclosed in double quotes: line 1 column 2 (char 1)")
  /\ READ_ONLY_MODE (valves Sample.writable) && _is_write_tool "jira_delete_issue"
     = false
  /\ call_mcp_tool (Sample.env_of []) Sample.writable "jira_delete_issue"
                   (PStr "{oops") Sample.alice_ctx [] =
     (Ok (Json.dumps
            (PDict [("error",
                     PStr "Invalid JSON arguments: Expecting property name enclosed in double quotes: line 1 column 2 (char 1)")])),
      [])
  /\ json_loads Sample.env_deep Sample.deep_brackets = Raise Sample.recursion_error
  /\ call_mcp_tool Sample.env_deep Sample.writable "jira_search"
                   (PStr Sample.deep_brackets) Sample.alice_ctx [] =
     (Raise Sample.recursion_error, []).
Proof.
  do 2 (split; [reflexivity |]). split.
  - exact (proj2 (C7_malformed_arguments (Sample.env_of []) Sample.writable
                    "jira_delete_issue" "{oops" Sample.alice_ctx [] _ eq_refl)
                 Sample.alice eq_refl eq_refl).
  - split; [reflexivity |].
    exact (proj2 (C7_malformed_arguments Sample.env_deep Sample.writable
                    "jira_search" Sample.deep_brackets Sample.alice_ctx [] _
                    eq_refl)
                 Sample.alice eq_refl eq_refl).
Defined.

(** C7, as stated, fails: under the read-only flag a write-classified tool
    name with an undecodable argument string gets the read-only denial, not
    the payload naming the parse failure; and an argument string on which
    [json.loads] raises another exception than [JSONDecodeError] gets no
    payload at all. *)
Lemma C7_counterexample :
  is_ok (json_loads (Sample.env_of []) "{oops") = false
  /\ call_mcp_tool (Sample.env_of []) Tools_init "jira_delete_issue"
                   (PStr "{oops") Sample.alice_ctx [] =
     (Ok (_read_only_message "execute 'jira_delete_issue'"), [])
  /\ _read_only_message "execute 'jira_delete_issue'" <>
     argument_error
       (mkExn JSONDecodeError
          "Expecting property name enclosed in double quotes: line 1 column 2 (char 1)")
  /\ is_ok (json_loads Sample.env_deep Sample.deep_brackets) = false
  /\ call_mcp_tool Sample.env_deep Sample.writable "jira_search"
                   (PStr Sample.deep_brackets) Sample.alice_ctx [] =
     (Raise Sample.recursion_error, []).
Proof.
  split; [reflexivity |]. split; [reflexivity |]. split.
  - intros H. vm_compute in H. discriminate H.
  - split; reflexivity.
Qed.

(** *** No operation raises past the resolver *)

Lemma rre_ok {A} (a : A) : result_raises_Exception (Ok a).
Proof. intros e H. discriminate H. Qed.

Lemma rre_raise {A} e :
  is_Exception e = true -> result_raises_Exception (@Raise A e).
Proof. intros He e' H. now injection H as <-. Qed.

Lemma rre_rbind {A B} (r : result A) (k : A -> result B) :
  result_raises_Exception r ->
  (forall a, result_raises_Exception (k a)) ->
  result_raises_Exception (rbind r k).
Proof.
  intros Hr Hk e H. destruct r as [a | e']; cbn [rbind] in H.
  - exact (Hk a e H).
  - injection H as <-. now apply Hr.
Qed.

#[local] Hint Resolve rre_ok rre_rbind : pyexn.
#[local] Hint Extern 1 (result_raises_Exception (Raise _)) =>
  apply rre_raise; reflexivity : pyexn.

Lemma rre_get v k d : result_raises_Exception (get v k d).
Proof.
  destruct v; cbn [get]; auto with pyexn.
  destruct (dict_lookup k entries); auto with pyexn.
Qed.

Lemma rre_contains_key k v : result_raises_Exception (contains_key k v).
Proof. destruct v; cbn [contains_key]; auto with pyexn. Qed.

Lemma rre_getitem v k : result_raises_Exception (getitem v k).
Proof.
  destruct v; cbn [getitem]; auto with pyexn.
  destruct (dict_lookup k entries); auto with pyexn.
Qed.

Lemma rre_iter v : result_raises_Exception (iter v).
Proof. destruct v; cbn [iter]; auto with pyexn. Qed.

#[local] Hint Resolve rre_get rre_contains_key rre_getitem rre_iter : pyexn.

Lemma rre_join sep items : result_raises_Exception (PyValue.join sep items).
Proof.
  unfold PyValue.join. apply rre_rbind; [| auto with pyexn].
  generalize 0. induction items as [| v rest IH]; intros i; cbn [join_from];
    [auto with pyexn |].
  destruct v; auto with pyexn.
Qed.

Lemma rre_collect_item env item acc :
  result_raises_Exception (collect_item env item acc).
Proof.
  unfold collect_item. apply rre_rbind; [auto with pyexn |]. intros ty.
  destruct (eq_str ty "text"); [auto with pyexn |].
  apply rre_rbind; [auto with pyexn |]. intros ty'.
  destruct (eq_str ty' "resource"); auto 6 with pyexn.
Qed.

Lemma rre_collect_items env items :
  forall acc, result_raises_Exception (collect_items env items acc).
Proof.
  induction items as [| item rest IH]; intros acc; cbn [collect_items];
    [auto with pyexn |].
  apply rre_rbind; [apply rre_collect_item | exact IH].
Qed.

Lemma rre_normalize env data : result_raises_Exception (normalize env data).
Proof.
  unfold normalize.
  repeat (apply rre_rbind; [auto using rre_collect_items with pyexn |]; intro).
  destruct a2; [auto with pyexn | apply rre_join].
Qed.

Lemma rre_discover_tool self enabled tool acc :
  result_raises_Exception (discover_tool self enabled tool acc).
Proof.
  unfold discover_tool. apply rre_rbind; [auto with pyexn |]. intros name.
  destruct name; auto with pyexn.
  repeat match goal with
         | |- context [if ?b then _ else _] => destruct b
         end; auto 6 with pyexn.
Qed.

Lemma rre_discover_tools self enabled tools :
  forall acc, result_raises_Exception (discover_tools self enabled tools acc).
Proof.
  induction tools as [| tool rest IH]; intros acc; cbn [discover_tools];
    [auto with pyexn |].
  apply rre_rbind; [apply rre_discover_tool | exact IH].
Qed.

Lemma rre_discover_filter self data :
  result_raises_Exception (discover_filter self data).
Proof.
  unfold discover_filter.
  repeat (apply rre_rbind; [auto using rre_discover_tools with pyexn |]; intro).
  auto with pyexn.
Qed.

Lemma re_ret {A} (a : A) : raises_Exception (ret a).
Proof. intros tr e tr' H. discriminate H. Qed.

Lemma re_raise {A} e : is_Exception e = true -> raises_Exception (@raise A e).
Proof. intros He tr e' tr' H. now injection H as <- _. Qed.

Lemma re_lift {A} (r : result A) :
  result_raises_Exception r -> raises_Exception (lift r).
Proof. intros Hr tr e tr' H. injection H as H _. now apply Hr. Qed.

Lemma re_bind {A B} (c : M A) (k : A -> M B) :
  raises_Exception c ->
  (forall a, raises_Exception (k a)) ->
  raises_Exception (bind c k).
Proof.
  intros Hc Hk tr e tr' H. unfold bind in H.
  destruct (c tr) as [[a | e'] tr1] eqn:Hrun.
  - exact (Hk a tr1 e tr' H).
  - injection H as <- _. exact (Hc tr e' tr1 Hrun).
Qed.

Lemma re_post_bind {B} env req (k : response -> M B) :
  well_behaved env ->
  (forall sent r, post env sent req = Ok r -> raises_Exception (k r)) ->
  raises_Exception (bind (requests_post env req) k).
Proof.
  intros [Hpost _] Hk tr e tr' H. unfold bind, requests_post in H.
  destruct (post env tr req) as [r | e'] eqn:Hrun.
  - exact (Hk tr r Hrun _ e tr' H).
  - injection H as <- _. exact (Hpost tr req e' Hrun).
Qed.

#[local] Hint Resolve re_ret re_lift re_bind rre_join rre_normalize
  rre_discover_filter : pyexn.
#[local] Hint Extern 1 (raises_Exception (raise _)) =>
  apply re_raise; reflexivity : pyexn.

Lemma re_json env sent req r :
  well_behaved env ->
  post env sent req = Ok r -> result_raises_Exception (json r).
Proof. intros [_ [Hjson _]] Hpost e H. exact (Hjson sent req r e Hpost H). Qed.

Lemma re_handshake env self uv :
  well_behaved env -> raises_Exception (_handshake env self uv).
Proof.
  intros Hwb. unfold _handshake.
  apply re_post_bind; [exact Hwb |]. intros sent r Hr.
  destruct (negb (status_code r =? 200)); [auto with pyexn |].
  apply re_bind; [apply re_lift, (re_json env sent _ r Hwb Hr) |]. intros data.
  apply re_bind; [auto with pyexn |]. intros [|].
  - auto with pyexn.
  - apply re_post_bind; [exact Hwb |]. auto with pyexn.
Qed.

Lemma re_call_tool_try env self name args uv :
  well_behaved env -> raises_Exception (_call_tool_try env self name args uv).
Proof.
  intros Hwb. unfold _call_tool_try.
  apply re_bind; [now apply re_handshake |]. intros sid.
  apply re_post_bind; [exact Hwb |]. intros sent r Hr.
  destruct (negb (status_code r =? 200)); [auto with pyexn |].
  apply re_bind; [apply re_lift, (re_json env sent _ r Hwb Hr) |]. intros data.
  apply re_bind; [auto with pyexn |]. intros [|]; [| auto with pyexn].
  apply re_bind; [auto with pyexn |]. intros err.
  apply re_bind; [| auto with pyexn].
  destruct err; auto with pyexn.
Qed.

Lemma re_discover_try env self uv :
  well_behaved env -> raises_Exception (discover_try env self uv).
Proof.
  intros Hwb. unfold discover_try.
  apply re_bind; [now apply re_handshake |]. intros sid.
  apply re_post_bind; [exact Hwb |]. intros sent r Hr.
  destruct (negb (status_code r =? 200)); [auto with pyexn |].
  apply re_bind; [apply re_lift, (re_json env sent _ r Hwb Hr) |]. intros data.
  apply re_bind; [auto with pyexn |]. intros [|]; auto with pyexn.
Qed.

(** [_call_tool] always returns a string. *)
Lemma call_tool_returns env self name args uv tr :
  well_behaved env ->
  exists s tr', _call_tool env self name args uv tr = (Ok s, tr').
Proof.
  intros Hwb. unfold _call_tool.
  destruct (negb (str_truthy (JIRA_PAT uv))); [unfold ret; eauto |].
  unfold try_except.
  destruct (_call_tool_try env self name args uv tr) as [[s | e] tr1] eqn:Hrun;
    [eauto |].
  apply (re_call_tool_try env self name args uv Hwb) in Hrun.
  unfold _call_tool_except. rewrite Hrun.
  destruct (is_Timeout e); unfold ret; eauto.
Qed.

(** Discovery past the resolver always returns a string. *)
Lemma discover_returns env self uv tr :
  well_behaved env ->
  exists s tr',
    (if negb (str_truthy (JIRA_PAT uv)) then ret not_configured
     else try_except (discover_try env self uv) discover_except) tr
    = (Ok s, tr').
Proof.
  intros Hwb.
  destruct (negb (str_truthy (JIRA_PAT uv))); [unfold ret; eauto |].
  unfold try_except.
  destruct (discover_try env self uv tr) as [[s | e] tr1] eqn:Hrun; [eauto |].
  apply (re_discover_try env self uv Hwb) in Hrun.
  unfold discover_except. rewrite Hrun. unfold ret; eauto.
Qed.

(** The resolver on the contexts it accepts. *)
Lemma resolver_returns env self ctx :
  resolvable env ctx = true ->
  exists uv,
    _get_user_valves env self ctx = Ok uv
    /\ (falls_back ctx = true -> uv = user_valves self).
Proof.
  unfold resolvable, falls_back, _get_user_valves.
  destruct (negb (user_truthy ctx)); cbn [orb]; [eauto |].
  destruct (user_get_valves ctx) as [[uv | v] | e]; cbn [rbind];
    [intros _; exists uv; split; [reflexivity | discriminate] | | discriminate].
  destruct v; try (intros _; eauto; fail).
  destruct (UserValves_init env entries) as [uv | e]; [| discriminate].
  intros _. exists uv. split; [reflexivity | discriminate].
Qed.

(** C1.  On every caller context the resolver accepts (a falsy context, or a
    mapping whose "valves" entry is absent, [None], a [UserValves] instance,
    a mapping its constructor accepts, or any other value) the resolver
    returns a credentials record, the defaults in the fall-back cases, and
    every public operation returns a string: whatever the library code
    raises below [Exception] during the handshake, the posts and the
    decoding is turned into a returned payload. *)
Theorem C1_operations_return_strings env self op ctx tr :
  well_behaved env ->
  resolvable env ctx = true ->
  (exists uv,
      _get_user_valves env self ctx = Ok uv
      /\ (falls_back ctx = true -> uv = user_valves self))
  /\ exists s tr', run env self op ctx tr = (Ok s, tr').
Proof.
  intros Hwb Hctx.
  destruct (resolver_returns env self ctx Hctx) as [uv [Huv Hdefault]].
  split; [now exists uv |].
  destruct (denied self op) eqn:Hgate.
  - unfold denied in Hgate. apply andb_prop in Hgate as [Hro Hw].
    destruct op; try (vm_compute in Hw; discriminate Hw);
      unfold_operation; rewrite Hro; try (unfold ret; eauto; fail).
    unfold is_write_operation in Hw. cbn [tool_name_of] in Hw. rewrite Hw.
    unfold ret. cbn [andb]. eauto.
  - destruct (tool_name_of op) as [name |] eqn:Hname.
    + destruct (arguments_parse env op) eqn:Hparse.
      * destruct (run_reaches_call_tool env self op ctx uv tr name
                    Huv Hgate Hparse Hname) as [args ->].
        now apply call_tool_returns.
      * destruct op; try discriminate Hparse.
        unfold denied, is_write_operation in Hgate.
        cbn [tool_name_of arguments_parse] in *.
        unfold_operation. rewrite Hgate, (bind_lift_ok _ _ _ _ Huv).
        match goal with
        | |- context [parse_arguments env ?a] =>
            destruct a as [| | | str | |]; try discriminate Hparse
        end.
        cbn [parse_arguments] in *.
        destruct (json_loads env str) as [v | e] eqn:Hloads;
          [discriminate Hparse |].
        destruct Hwb as [_ [_ Hdecode]]. rewrite (Hdecode str e Hloads).
        unfold ret. eauto.
    + destruct op; try discriminate Hname. unfold_operation.
      rewrite (bind_lift_ok _ _ _ _ Huv). now apply discover_returns.
Qed.

Lemma sample_well_behaved script :
  forallb Sample.entry_ok script = true -> well_behaved (Sample.env_of script).
Proof.
  intros Hscript.
  assert (Hnth : forall n,
             Sample.entry_ok (nth n script (Raise Sample.connection_refused))
             = true).
  { intros n. destruct (nth_in_or_default n script (Raise Sample.connection_refused))
      as [Hin | ->]; [| reflexivity].
    rewrite forallb_forall in Hscript. now apply Hscript. }
  repeat split.
  - intros sent req e H. cbn in H. unfold Sample.scripted in H.
    specialize (Hnth (List.length sent)). now rewrite H in Hnth.
  - intros sent req r e H Hjson. cbn in H. unfold Sample.scripted in H.
    specialize (Hnth (List.length sent)). rewrite H in Hnth.
    cbn [Sample.entry_ok] in Hnth. now rewrite Hjson in Hnth.
  - intros str e H. cbn in H. unfold Sample.loads in H.
    destruct (String.eqb str "{}"); [discriminate H |].
    destruct (String.eqb str "{oops"); now injection H as <-.
Qed.

Lemma C1_witness :
  well_behaved Sample.env_notify_refused
  /\ resolvable Sample.env_notify_refused Sample.loose_ctx = true
  /\ (exists s tr',
         run Sample.env_notify_refused Sample.writable (GetIssue "PROJ-1" "")
             Sample.loose_ctx [] = (Ok s, tr')).
Proof.
  assert (Hwb : well_behaved Sample.env_notify_refused)
    by exact (sample_well_behaved
                [Sample.init_ok (Sample.session_header "s1");
                 Raise Sample.connection_refused] eq_refl).
  split; [exact Hwb |].
  split; [reflexivity |].
  exact (proj2 (C1_operations_return_strings
                  Sample.env_notify_refused Sample.writable
                  (GetIssue "PROJ-1" "") Sample.loose_ctx []
                  Hwb eq_refl)).
Defined.

(** C1, as stated, fails: the resolver runs outside every [try], so a
    configuration mapping its constructor rejects, and a context that is no
    mapping, make the operation raise to the host. *)
Lemma C1_counterexample :
  run (Sample.env_of []) Tools_init GetAllProjects Sample.bad_timeout_ctx [] =
  (Raise (Sample.field_error "REQUEST_TIMEOUT" "integer"), [])
  /\ run (Sample.env_of []) Tools_init GetAllProjects (UserOther (PList [PInt 1])) [] =
     (Raise (mkExn AttributeError "'list' object has no attribute 'get'"), []).
Proof. split; reflexivity. Qed.

(** ** Checks of the library model on concrete inputs *)

Example split_commas : split "," "a, b,,c" = ["a"; " b"; ""; "c"].
Proof. reflexivity. Qed.

Example split_empty : split "," "" = [""].
Proof. reflexivity. Qed.

Example strip_ascii : strip ("  jira_search " ++ newline) = "jira_search".
Proof. reflexivity. Qed.

Example strip_unicode :
  strip (bytes [194; 160; 97; 32; 98; 226; 128; 168]) = "a b".
Proof. reflexivity. Qed.

Example code_points_of_utf8 :
  code_points (bytes [97; 195; 176; 240; 159; 148; 146]) = [97; 240; 128274].
Proof. reflexivity. Qed.

Example hex4_of_quote : hex4 8217 = "2019".
Proof. reflexivity. Qed.

Example str_of_Z_values :
  (str_of_Z 0, str_of_Z 120, str_of_Z (-7)) = ("0", "120", "-7").
Proof. reflexivity. Qed.

Example enabled_list_of_setting :
  enabled_list
    (mkTools (mkValves "u" "g" " jira_search, jira_get_issue ,," true)
             (mkUserValves "" "" 120) "v" "n" "1")
  = ["jira_search"; "jira_get_issue"].
Proof. reflexivity. Qed.

Example dumps_escapes :
  Json.dumps (PDict [("n", PList [PInt 1; PBool true; PNone]);
                     ("s", PStr (bytes [195; 176; 10; 34; 240; 159; 148; 146]))])
  = "{" ++ Json.quote ++ "n" ++ Json.quote ++ ": [1, true, null], "
    ++ Json.quote ++ "s" ++ Json.quote ++ ": " ++ Json.quote
    ++ bytes [92] ++ "u00f0" ++ bytes [92] ++ "n" ++ bytes [92] ++ Json.quote
    ++ bytes [92] ++ "ud83d" ++ bytes [92] ++ "udd12" ++ Json.quote ++ "}".
Proof. reflexivity. Qed.

Example dumps_indent2_layout :
  Json.dumps_indent2 (PList [PDict [("a", PList []); ("b", PDict [("c", PInt 1)])]])
  = "[" ++ newline ++ "  {" ++ newline
    ++ "    " ++ Json.quote ++ "a" ++ Json.quote ++ ": []," ++ newline
    ++ "    " ++ Json.quote ++ "b" ++ Json.quote ++ ": {" ++ newline
    ++ "      " ++ Json.quote ++ "c" ++ Json.quote ++ ": 1" ++ newline
    ++ "    }" ++ newline ++ "  }" ++ newline ++ "]".
Proof. reflexivity. Qed.

Example http_500_at_the_call :
  fst (run (Sample.env_of [Sample.init_ok (Sample.session_header "s1");
                           Sample.accepted; Sample.server_error])
           Sample.writable GetAllProjects Sample.alice_ctx [])
  = Ok (Json.dumps (PDict [("error", PStr "HTTP 500: Internal Server Error")])).
Proof. reflexivity. Qed.

Example timeout_at_the_call :
  fst (run (Sample.env_of [Sample.init_ok (Sample.session_header "s1");
                           Sample.accepted;
                           Raise (mkExn Timeout "Read timed out.")])
           Sample.writable GetAllProjects Sample.alice_ctx [])
  = Ok (Json.dumps
          (PDict [("error",
                   PStr "Request timeout after 120s - try increasing REQUEST_TIMEOUT in user settings")])).
Proof. reflexivity. Qed.

(** * Further properties of the connector *)

(** ** Shape of the exchange *)

(** A handshake posts the initialize request and then, unless it raised
    before, the notification with the session identifier it returns. *)
Lemma handshake_outcomes env self uv tr
      (P : result (option string) * trace -> Prop) :
  (forall e, P (Raise e, (tr ++ [init_request self uv])%list)) ->
  (forall sid out,
      (forall s, out = Ok s -> s = sid) ->
      P (out, (tr ++ [init_request self uv; notify_request self uv sid])%list)) ->
  P (_handshake env self uv tr).
Proof.
  intros Hinit Hnotify.
  rewrite handshake_unfold. unfold bind at 1, requests_post at 1.
  destruct (post env tr (init_request self uv)) as [r | e]; [| apply Hinit].
  destruct (negb (status_code r =? 200)); [apply Hinit |].
  unfold bind at 1, lift at 1.
  destruct (json r) as [data | e]; [| apply Hinit].
  unfold bind at 1, lift at 1.
  destruct (contains_key "error" data) as [[|] | e]; [| | apply Hinit].
  - unfold bind, lift, raise.
    destruct (getitem data "error"); apply Hinit.
  - unfold bind, requests_post, ret. rewrite <- app_assoc. cbn [app].
    destruct (post env _ _) as [answer | e]; apply Hnotify; intros s H.
    + now injection H as <-.
    + discriminate H.
Qed.

Lemma handshake_shape env self uv tr :
  (exists e,
      _handshake env self uv tr = (Raise e, (tr ++ [init_request self uv])%list))
  \/ (exists sid out,
         _handshake env self uv tr =
         (out, (tr ++ [init_request self uv; notify_request self uv sid])%list)
         /\ (forall s, out = Ok s -> s = sid)).
Proof.
  apply (handshake_outcomes env self uv tr
           (fun x =>
              (exists e, x = (Raise e, (tr ++ [init_request self uv])%list))
              \/ (exists sid out,
                     x = (out, (tr ++ [init_request self uv;
                                       notify_request self uv sid])%list)
                     /\ (forall s, out = Ok s -> s = sid)))).
  - intros e. left. eauto.
  - intros sid out Hsid. right. eauto.
Qed.

Lemma call_tool_except_posts_nothing uv e tr :
  exists out, _call_tool_except uv e tr = (out, tr).
Proof.
  unfold _call_tool_except, ret, raise.
  destruct (is_Timeout e); [eauto |]. destruct (is_Exception e); eauto.
Qed.

Lemma discover_except_posts_nothing e tr :
  exists out, discover_except e tr = (out, tr).
Proof.
  unfold discover_except, ret, raise. destruct (is_Exception e); eauto.
Qed.

Lemma discover_handshake_raises env self uv tr e tr1 :
  _handshake env self uv tr = (Raise e, tr1) ->
  try_except (discover_try env self uv) discover_except tr = discover_except e tr1.
Proof.
  intros Hhs. unfold discover_try.
  now rewrite (try_except_raise _ _ _ _ _ (bind_raise _ _ _ _ _ Hhs)).
Qed.

(** With a token, [_call_tool] posts a prefix of the exchange
    initialize, notification, tools/call. *)
Lemma call_tool_trace env self name args uv tr :
  str_truthy (JIRA_PAT uv) = true ->
  exists sid n,
    snd (_call_tool env self name args uv tr) =
    (tr ++ firstn n [init_request self uv; notify_request self uv sid;
                     call_request self uv sid name args])%list.
Proof.
  intros Hpat.
  destruct (handshake_shape env self uv tr) as [[e Hhs] | [sid [out [Hhs Hsid]]]].
  - rewrite (call_tool_handshake_raises env self name args uv tr e _ Hpat Hhs).
    destruct (call_tool_except_posts_nothing uv e (tr ++ [init_request self uv])%list)
      as [out ->].
    exists None, 1%nat. reflexivity.
  - destruct out as [s | e].
    + rewrite (Hsid s eq_refl) in Hhs.
      destruct (call_tool_posts_call env self name args uv tr sid _ Hpat Hhs)
        as [out ->].
      exists sid, 3%nat. cbn [snd firstn]. now rewrite <- app_assoc.
    + rewrite (call_tool_handshake_raises env self name args uv tr e _ Hpat Hhs).
      destruct (call_tool_except_posts_nothing uv e
                  (tr ++ [init_request self uv; notify_request self uv sid])%list)
        as [out ->].
      exists sid, 2%nat. reflexivity.
Qed.

Lemma discover_trace env self uv tr :
  exists sid n,
    snd (try_except (discover_try env self uv) discover_except tr) =
    (tr ++ firstn n [init_request self uv; notify_request self uv sid;
                     list_request self uv sid])%list.
Proof.
  destruct (handshake_shape env self uv tr) as [[e Hhs] | [sid [out [Hhs Hsid]]]].
  - rewrite (discover_handshake_raises env self uv tr e _ Hhs).
    destruct (discover_except_posts_nothing e (tr ++ [init_request self uv])%list)
      as [out ->].
    exists None, 1%nat. reflexivity.
  - destruct out as [s | e].
    + rewrite (Hsid s eq_refl) in Hhs.
      destruct (discover_posts_list env self uv tr sid _ Hhs) as [out ->].
      exists sid, 3%nat. cbn [snd firstn]. now rewrite <- app_assoc.
    + rewrite (discover_handshake_raises env self uv tr e _ Hhs).
      destruct (discover_except_posts_nothing e
                  (tr ++ [init_request self uv; notify_request self uv sid])%list)
        as [out ->].
      exists sid, 2%nat. reflexivity.
Qed.

(** A denied operation returns without posting. *)
Lemma denied_run env self op ctx tr :
  denied self op = true ->
  exists out, run env self op ctx tr = (out, tr).
Proof.
  intros Hd. unfold denied in Hd. apply andb_prop in Hd as [Hro Hw].
  destruct op; try (vm_compute in Hw; discriminate Hw);
    unfold_operation; rewrite Hro; try (unfold ret; eauto; fail).
  unfold is_write_operation in Hw. cbn [tool_name_of] in Hw. rewrite Hw.
  unfold ret. cbn [andb]. eauto.
Qed.

(** An exception of the resolver leaves an operation that is not denied as
    it is, before anything is posted. *)
Lemma run_resolver_raises env self op ctx tr e :
  _get_user_valves env self ctx = Raise e ->
  denied self op = false ->
  run env self op ctx tr = (Raise e, tr).
Proof.
  intros Huv Hd. unfold denied in Hd.
  destruct op; unfold_operation.
  1-15: now rewrite (bind_lift_raise _ _ _ _ Huv).
  1-8: destruct (READ_ONLY_MODE (valves self));
       [discriminate Hd | now rewrite (bind_lift_raise _ _ _ _ Huv)].
  unfold is_write_operation in Hd. cbn [tool_name_of] in Hd.
  now rewrite Hd, (bind_lift_raise _ _ _ _ Huv).
Qed.

(** Every run ends before the first post, or is one call of [_call_tool]
    with the tool name of the operation, or is the guarded body of
    discovery. *)
Lemma run_cases env self op ctx tr :
  (exists out, run env self op ctx tr = (out, tr))
  \/ (exists uv name args,
         _get_user_valves env self ctx = Ok uv
         /\ tool_name_of op = Some name
         /\ run env self op ctx tr = _call_tool env self name args uv tr)
  \/ (exists uv,
         op = Discover
         /\ _get_user_valves env self ctx = Ok uv
         /\ str_truthy (JIRA_PAT uv) = true
         /\ run env self op ctx tr =
            try_except (discover_try env self uv) discover_except tr).
Proof.
  destruct (denied self op) eqn:Hd; [left; now apply denied_run |].
  destruct (_get_user_valves env self ctx) as [uv | e] eqn:Huv;
    [| left; exists (Raise e); now apply run_resolver_raises].
  destruct (arguments_parse env op) eqn:Hparse.
  - destruct (tool_name_of op) as [name |] eqn:Hname.
    + right; left.
      destruct (run_reaches_call_tool env self op ctx uv tr name
                  Huv Hd Hparse Hname) as [args Hrun].
      exists uv, name, args. auto.
    + destruct op; try discriminate Hname. unfold_operation.
      rewrite (bind_lift_ok _ _ _ _ Huv).
      destruct (str_truthy (JIRA_PAT uv)) eqn:Hpat; cbn [negb].
      * right; right. exists uv. auto.
      * left. unfold ret. eauto.
  - left. destruct op; try discriminate Hparse.
    unfold denied, is_write_operation in Hd.
    cbn [tool_name_of arguments_parse] in *.
    unfold_operation. rewrite Hd, (bind_lift_ok _ _ _ _ Huv).
    match goal with
    | |- context [parse_arguments env ?a] =>
        destruct (parse_arguments env a) as [v | e]; [discriminate Hparse |]
    end.
    unfold ret, raise. destruct (is_JSONDecodeError e); eauto.
Qed.

Lemma headers_carry_credentials self uv sid :
  str_truthy (JIRA_PAT uv) = true ->
  dict_lookup "x-mcp-servers" (_get_headers self uv sid)
  = Some (MCP_SERVER_GROUP (valves self))
  /\ dict_lookup "x-mcp-jira-authorization" (_get_headers self uv sid)
     = Some ("Token " ++ JIRA_PAT uv).
Proof.
  intros Hpat. unfold _get_headers. rewrite Hpat.
  destruct (str_truthy (LITELLM_API_KEY uv)), sid as [s |];
    try destruct (str_truthy s); split; reflexivity.
Qed.

(** The requests an operation posts: nothing, or a prefix of the exchange
    initialize, notification, third request, made with the resolved
    credentials, which hold a token. *)
Lemma run_trace_shape env self op ctx tr :
  exists new,
    snd (run env self op ctx tr) = (tr ++ new)%list
    /\ (new = []
        \/ exists uv sid third n,
            _get_user_valves env self ctx = Ok uv
            /\ str_truthy (JIRA_PAT uv) = true
            /\ is_third_request self uv sid third
            /\ new = firstn n [init_request self uv; notify_request self uv sid;
                               third]).
Proof.
  destruct (run_cases env self op ctx tr)
    as [[out Hrun] | [[uv [name [args [Huv [Hname Hrun]]]]]
                     | [uv [Hop [Huv [Hpat Hrun]]]]]]; rewrite Hrun.
  - exists []. split; [now rewrite app_nil_r | now left].
  - destruct (str_truthy (JIRA_PAT uv)) eqn:Hpat.
    + destruct (call_tool_trace env self name args uv tr Hpat) as [sid [n Htr]].
      eexists. split; [exact Htr |]. right.
      exists uv, sid, (call_request self uv sid name args), n.
      repeat split; auto. right. eauto.
    + rewrite (call_tool_without_token env self name args uv tr Hpat).
      exists []. split; [now rewrite app_nil_r | now left].
  - destruct (discover_trace env self uv tr) as [sid [n Htr]].
    eexists. split; [exact Htr |]. right.
    exists uv, sid, (list_request self uv sid), n.
    repeat split; auto. now left.
Qed.

Lemma Forall_prefix {A} (P : A -> Prop) n (l : list A) :
  Forall P l -> Forall P (firstn n l).
Proof.
  intros H. revert n. induction H as [| x l Hx Hl IH]; intros [| n]; cbn [firstn];
    auto.
Qed.

(** X1.  Every operation posts at most three requests, and those it posts
    are, in this order, a prefix of: the initialize request, the initialized
    notification, and one tools/list (discovery) or tools/call request. *)
Theorem operations_post_a_prefix_of_the_exchange env self op ctx tr :
  exists new,
    snd (run env self op ctx tr) = (tr ++ new)%list
    /\ (List.length new <= 3)%nat
    /\ exists uv sid third n,
        is_third_request self uv sid third
        /\ new = firstn n [init_request self uv; notify_request self uv sid; third].
Proof.
  destruct (run_trace_shape env self op ctx tr)
    as [new [Hrun [-> | [uv [sid [third [n [_ [_ [Hthird ->]]]]]]]]]].
  - exists []. split; [exact Hrun |]. split; [cbn; lia |].
    exists (user_valves self), None, (list_request self (user_valves self) None),
      0%nat.
    split; [now left | reflexivity].
  - eexists. split; [exact Hrun |]. split.
    + rewrite length_firstn. cbn [List.length]. lia.
    + exists uv, sid, third, n. now split.
Qed.

(** X2.  No operation posts anything without a backend token: when requests
    are posted the resolver has returned credentials with a token, and every
    posted request goes to the configured endpoint with the routing-group
    header and the header "x-mcp-jira-authorization: Token <token>". *)
Theorem every_request_carries_the_token env self op ctx tr :
  exists new,
    snd (run env self op ctx tr) = (tr ++ new)%list
    /\ (new = []
        \/ exists uv,
            _get_user_valves env self ctx = Ok uv
            /\ str_truthy (JIRA_PAT uv) = true
            /\ Forall (carries_credentials self uv) new).
Proof.
  destruct (run_trace_shape env self op ctx tr)
    as [new [Hrun [-> | [uv [sid [third [n [Huv [Hpat [Hthird ->]]]]]]]]]].
  - exists []. split; [exact Hrun | now left].
  - eexists. split; [exact Hrun |]. right. exists uv.
    split; [exact Huv |]. split; [exact Hpat |].
    apply Forall_prefix.
    pose proof (headers_carry_credentials self uv None Hpat) as [Hg0 Ht0].
    pose proof (headers_carry_credentials self uv sid Hpat) as [Hg Ht].
    assert (Hthird' : carries_credentials self uv third)
      by (destruct Hthird as [-> | [name [args ->]]]; repeat split; auto).
    repeat apply Forall_cons; [ | | exact Hthird' | apply Forall_nil];
      repeat split; auto.
Qed.

(** ** The session identifier *)

Lemma headers_session_lookup self uv sid :
  dict_lookup "Mcp-Session-Id" (_get_headers self uv (Some sid))
  = if str_truthy sid then Some sid else None.
Proof.
  unfold _get_headers.
  destruct (str_truthy (LITELLM_API_KEY uv)), (str_truthy (JIRA_PAT uv)),
    (str_truthy sid); reflexivity.
Qed.

(** X3.  The session identifier of the initialize response is echoed: the
    notification and the tools/call request carry it in the Mcp-Session-Id
    header, unless it is the empty string, which is treated as absent. *)
Theorem session_identifier_is_echoed env self uv tr r data sid :
  post env tr (init_request self uv) = Ok r ->
  status_code r = 200 ->
  json r = Ok data ->
  contains_key "error" data = Ok false ->
  headers_get r "Mcp-Session-Id" = Some sid ->
  let echoed := if str_truthy sid then Some sid else None in
  let notify := notify_request self uv (Some sid) in
  (exists out,
      _handshake env self uv tr = (out, (tr ++ [init_request self uv; notify])%list))
  /\ dict_lookup "Mcp-Session-Id" (req_headers notify) = echoed
  /\ forall answer name args,
      post env (tr ++ [init_request self uv])%list notify = Ok answer ->
      str_truthy (JIRA_PAT uv) = true ->
      exists out,
        _call_tool env self name args uv tr =
        (out, (tr ++ [init_request self uv; notify;
                      call_request self uv (Some sid) name args])%list)
        /\ dict_lookup "Mcp-Session-Id"
                       (req_headers (call_request self uv (Some sid) name args))
           = echoed.
Proof.
  intros Hpost Hstatus Hjson Herr Hsid echoed notify.
  pose proof (handshake_after_init env self uv tr r data Hpost Hstatus Hjson Herr)
    as Hhs.
  cbv zeta in Hhs. rewrite Hsid in Hhs. fold notify in Hhs.
  split; [| split].
  - destruct (post env (tr ++ [init_request self uv])%list notify); eauto.
  - apply headers_session_lookup.
  - intros answer name args Hanswer Hpat. rewrite Hanswer in Hhs.
    destruct (call_tool_posts_call env self name args uv tr (Some sid) _ Hpat Hhs)
      as [out Hout].
    exists out. split; [| apply headers_session_lookup].
    rewrite Hout. now rewrite <- app_assoc.
Qed.

Lemma session_identifier_is_echoed_witness :
  post Sample.env_notify_500 [] (init_request Sample.writable Sample.alice) =
  Sample.init_ok (Sample.session_header "s1")
  /\ dict_lookup "Mcp-Session-Id"
                 (req_headers (notify_request Sample.writable Sample.alice (Some "s1")))
     = Some "s1"
  /\ post Fixtures.env_empty_session [] (init_request Sample.writable Sample.alice) =
     Sample.init_ok (Sample.session_header "")
  /\ dict_lookup "Mcp-Session-Id"
                 (req_headers (notify_request Sample.writable Sample.alice (Some "")))
     = None.
Proof.
  split; [reflexivity |]. split.
  - exact (proj1 (proj2 (session_identifier_is_echoed
                           Sample.env_notify_500 Sample.writable Sample.alice []
                           _ _ "s1" eq_refl eq_refl eq_refl eq_refl eq_refl))).
  - split; [reflexivity |].
    exact (proj1 (proj2 (session_identifier_is_echoed
                           Fixtures.env_empty_session Sample.writable
                           Sample.alice [] _ _ "" eq_refl eq_refl eq_refl
                           eq_refl eq_refl))).
Defined.

(** ** Failures of the handshake *)

Lemma status_not_200 r : status_code r <> 200 -> negb (status_code r =? 200) = true.
Proof. intros H. apply Z.eqb_neq in H. now rewrite H. Qed.

(** X4.  A status other than 200 on the initialize request ends the
    handshake with the exception "HTTP <status>: <body>" before the
    notification is posted; [_call_tool] returns that message as its error
    payload, discovery returns it prefixed with "Discovery failed: ". *)
Theorem handshake_transport_error env self uv tr r :
  post env tr (init_request self uv) = Ok r ->
  status_code r <> 200 ->
  let msg := "HTTP " ++ str_of_Z (status_code r) ++ ": " ++ text r in
  let sent := (tr ++ [init_request self uv])%list in
  _handshake env self uv tr = (Raise (mkExn PlainException msg), sent)
  /\ (forall name args,
         str_truthy (JIRA_PAT uv) = true ->
         _call_tool env self name args uv tr = (Ok (error_payload (PStr msg)), sent))
  /\ try_except (discover_try env self uv) discover_except tr
     = (Ok (error_payload (PStr ("Discovery failed: " ++ msg))), sent).
Proof.
  intros Hpost Hstatus msg sent.
  assert (Hhs : _handshake env self uv tr = (Raise (mkExn PlainException msg), sent)).
  { rewrite handshake_unfold, (bind_post_ok _ _ _ _ _ Hpost).
    now rewrite (status_not_200 r Hstatus). }
  split; [exact Hhs |]. split.
  - intros name args Hpat.
    now rewrite (call_tool_handshake_raises env self name args uv tr _ _ Hpat Hhs).
  - now rewrite (discover_handshake_raises env self uv tr _ _ Hhs).
Qed.

Lemma handshake_transport_error_witness :
  post Fixtures.env_init_500 [] (init_request Sample.writable Sample.alice) =
  Sample.server_error
  /\ run Fixtures.env_init_500 Sample.writable Fixtures.get_issue Sample.alice_ctx [] =
     (Ok (error_payload (PStr "HTTP 500: Internal Server Error")),
      [init_request Sample.writable Sample.alice]).
Proof.
  split; [reflexivity |].
  refine (proj1 (proj2 (handshake_transport_error
                          Fixtures.env_init_500 Sample.writable Sample.alice []
                          _ eq_refl _))
                "jira_get_issue" Fixtures.get_issue_arguments eq_refl).
  discriminate.
Defined.

(** X5.  An initialize response with status 200 whose body has an "error"
    entry ends the handshake with the exception "MCP Error: <error>" and no
    notification is posted; [_call_tool] returns that message as its error
    payload. *)
Theorem handshake_protocol_error env self uv tr r body err :
  post env tr (init_request self uv) = Ok r ->
  status_code r = 200 ->
  json r = Ok (PDict body) ->
  dict_lookup "error" body = Some err ->
  let msg := "MCP Error: " ++ py_str env err in
  let sent := (tr ++ [init_request self uv])%list in
  _handshake env self uv tr = (Raise (mkExn PlainException msg), sent)
  /\ forall name args,
      str_truthy (JIRA_PAT uv) = true ->
      _call_tool env self name args uv tr = (Ok (error_payload (PStr msg)), sent).
Proof.
  intros Hpost Hstatus Hjson Herr msg sent.
  assert (Hhs : _handshake env self uv tr = (Raise (mkExn PlainException msg), sent)).
  { rewrite handshake_unfold, (bind_post_ok _ _ _ _ _ Hpost), Hstatus.
    cbn [Z.eqb Pos.eqb negb].
    rewrite (bind_lift_ok _ _ _ _ Hjson).
    cbn [contains_key getitem]. unfold dict_has. rewrite Herr.
    reflexivity. }
  split; [exact Hhs |].
  intros name args Hpat.
  now rewrite (call_tool_handshake_raises env self name args uv tr _ _ Hpat Hhs).
Qed.

Lemma handshake_protocol_error_witness :
  post Fixtures.env_init_error [] (init_request Sample.writable Sample.alice) =
  Fixtures.error_response Fixtures.rpc_error
  /\ run Fixtures.env_init_error Sample.writable Fixtures.get_issue
         Sample.alice_ctx [] =
     (Ok (error_payload
            (PStr "MCP Error: {'code': -32602, 'message': 'Issue does not exist'}")),
      [init_request Sample.writable Sample.alice]).
Proof.
  split; [reflexivity |].
  exact (proj2 (handshake_protocol_error
                  Fixtures.env_init_error Sample.writable Sample.alice []
                  _ _ _ eq_refl eq_refl eq_refl eq_refl)
               "jira_get_issue" Fixtures.get_issue_arguments eq_refl).
Defined.

(** ** Failures of the tools/call request *)

Lemma call_tool_after_handshake env self name args uv tr sid tr1 :
  str_truthy (JIRA_PAT uv) = true ->
  _handshake env self uv tr = (Ok sid, tr1) ->
  _call_tool env self name args uv tr =
  try_except
    (bind (requests_post env (call_request self uv sid name args))
          (fun response =>
             if negb (status_code response =? 200)
             then ret (Json.dumps
                         (PDict [("error",
                                  PStr ("HTTP " ++ str_of_Z (status_code response)
                                        ++ ": " ++ text response))]))
             else
               bind (lift (json response)) (fun data =>
               bind (lift (contains_key "error" data)) (fun has_error =>
               if has_error : bool
               then
                 bind (lift (getitem data "error")) (fun err =>
                 bind (lift (match err with
                             | PDict _ => get err "message" (PStr (py_str env err))
                             | _ => Ok (PStr (py_str env err))
                             end)) (fun err_msg =>
                 ret (Json.dumps (PDict [("error", err_msg)]))))
               else lift (normalize env data)))))
    (_call_tool_except uv) tr1.
Proof.
  intros Hpat Hhs. unfold _call_tool. rewrite Hpat. cbn [negb].
  unfold try_except, _call_tool_try. now rewrite (bind_ok _ _ _ _ _ Hhs).
Qed.

(** X6.  A status other than 200 on the tools/call request is returned as
    the error payload "HTTP <status>: <body>"; the body is not decoded. *)
Theorem call_transport_error env self name args uv tr sid tr1 r :
  str_truthy (JIRA_PAT uv) = true ->
  _handshake env self uv tr = (Ok sid, tr1) ->
  post env tr1 (call_request self uv sid name args) = Ok r ->
  status_code r <> 200 ->
  _call_tool env self name args uv tr =
  (Ok (error_payload
         (PStr ("HTTP " ++ str_of_Z (status_code r) ++ ": " ++ text r))),
   (tr1 ++ [call_request self uv sid name args])%list).
Proof.
  intros Hpat Hhs Hpost Hstatus.
  rewrite (call_tool_after_handshake env self name args uv tr sid tr1 Hpat Hhs).
  apply try_except_ok.
  now rewrite (bind_post_ok _ _ _ _ _ Hpost), (status_not_200 r Hstatus).
Qed.

Lemma call_transport_error_witness :
  _handshake Fixtures.env_third_500 Sample.writable Sample.alice [] =
  (Ok (Some "s1"),
   [init_request Sample.writable Sample.alice;
    notify_request Sample.writable Sample.alice (Some "s1")])
  /\ run Fixtures.env_third_500 Sample.writable Fixtures.get_issue
         Sample.alice_ctx [] =
     (Ok (error_payload (PStr "HTTP 500: Internal Server Error")),
      [init_request Sample.writable Sample.alice;
       notify_request Sample.writable Sample.alice (Some "s1");
       call_request Sample.writable Sample.alice (Some "s1") "jira_get_issue"
                    Fixtures.get_issue_arguments]).
Proof.
  split; [reflexivity |].
  refine (call_transport_error
            Fixtures.env_third_500 Sample.writable "jira_get_issue"
            Fixtures.get_issue_arguments Sample.alice [] (Some "s1") _ _
            eq_refl eq_refl eq_refl _).
  discriminate.
Defined.

(** X7.  A tools/call response with status 200 whose body has an "error"
    entry is returned as an error payload: the "message" entry of the error
    when the error is a mapping that has one, the string form of the error
    otherwise.  The "result" of such a body is ignored. *)
Theorem call_protocol_error env self name args uv tr sid tr1 r body err :
  str_truthy (JIRA_PAT uv) = true ->
  _handshake env self uv tr = (Ok sid, tr1) ->
  post env tr1 (call_request self uv sid name args) = Ok r ->
  status_code r = 200 ->
  json r = Ok (PDict body) ->
  dict_lookup "error" body = Some err ->
  _call_tool env self name args uv tr =
  (Ok (error_payload
         match err with
         | PDict d =>
             match dict_lookup "message" d with
             | Some message => message
             | None => PStr (py_str env err)
             end
         | _ => PStr (py_str env err)
         end),
   (tr1 ++ [call_request self uv sid name args])%list).
Proof.
  intros Hpat Hhs Hpost Hstatus Hjson Herr.
  rewrite (call_tool_after_handshake env self name args uv tr sid tr1 Hpat Hhs).
  apply try_except_ok.
  rewrite (bind_post_ok _ _ _ _ _ Hpost), Hstatus. cbn [Z.eqb Pos.eqb negb].
  rewrite (bind_lift_ok _ _ _ _ Hjson).
  cbn [contains_key getitem]. unfold dict_has. rewrite Herr.
  rewrite (bind_lift_ok _ _ _ true eq_refl), (bind_lift_ok _ _ _ err eq_refl).
  destruct err as [| | | | | d]; try reflexivity.
  cbn [get]. now destruct (dict_lookup "message" d).
Qed.

Lemma call_protocol_error_witness :
  run (Fixtures.env_third_error Fixtures.rpc_error) Sample.writable
      Fixtures.get_issue Sample.alice_ctx [] =
  (Ok (error_payload (PStr "Issue does not exist")),
   [init_request Sample.writable Sample.alice;
    notify_request Sample.writable Sample.alice (Some "s1");
    call_request Sample.writable Sample.alice (Some "s1") "jira_get_issue"
                 Fixtures.get_issue_arguments])
  /\ fst (run (Fixtures.env_third_error (PStr "rate limited")) Sample.writable
              Fixtures.get_issue Sample.alice_ctx []) =
     Ok (error_payload (PStr "rate limited"))
  /\ fst (run (Fixtures.env_third_error (PDict [("code", PInt 7)])) Sample.writable
              Fixtures.get_issue Sample.alice_ctx []) =
     Ok (error_payload (PStr "{'code': 7}")).
Proof.
  split; [| split].
  - exact (call_protocol_error
             (Fixtures.env_third_error Fixtures.rpc_error) Sample.writable
             "jira_get_issue" Fixtures.get_issue_arguments Sample.alice []
             (Some "s1") _ _ _ _
             eq_refl eq_refl eq_refl eq_refl eq_refl eq_refl).
  - exact (f_equal fst
             (call_protocol_error
                (Fixtures.env_third_error (PStr "rate limited")) Sample.writable
                "jira_get_issue" Fixtures.get_issue_arguments Sample.alice []
                (Some "s1") _ _ _ _
                eq_refl eq_refl eq_refl eq_refl eq_refl eq_refl)).
  - exact (f_equal fst
             (call_protocol_error
                (Fixtures.env_third_error (PDict [("code", PInt 7)]))
                Sample.writable
                "jira_get_issue" Fixtures.get_issue_arguments Sample.alice []
                (Some "s1") _ _ _ _
                eq_refl eq_refl eq_refl eq_refl eq_refl eq_refl)).
Defined.

(** X8.  When the initialize POST or the tools/call POST raises an exception
    below [Exception], [_call_tool] returns a payload and posts nothing
    more: for a timeout the payload names the configured REQUEST_TIMEOUT,
    also when it was the initialize POST, which runs under the handshake
    timeout, that timed out; for any other exception the payload is its
    message. *)
Theorem call_tool_post_raises env self name args uv tr e :
  str_truthy (JIRA_PAT uv) = true ->
  is_Exception e = true ->
  let payload :=
    if is_Timeout e then timeout_payload uv else error_payload (PStr (exn_msg e)) in
  (post env tr (init_request self uv) = Raise e ->
   _call_tool env self name args uv tr
   = (Ok payload, (tr ++ [init_request self uv])%list))
  /\ (forall sid tr1,
         _handshake env self uv tr = (Ok sid, tr1) ->
         post env tr1 (call_request self uv sid name args) = Raise e ->
         _call_tool env self name args uv tr
         = (Ok payload, (tr1 ++ [call_request self uv sid name args])%list)).
Proof.
  intros Hpat Hexn payload.
  assert (Hhandler : forall sent, _call_tool_except uv e sent = (Ok payload, sent)).
  { intros sent. unfold _call_tool_except, payload. rewrite Hexn.
    now destruct (is_Timeout e). }
  split.
  - intros Hpost.
    rewrite (call_tool_handshake_raises env self name args uv tr e
               (tr ++ [init_request self uv])%list Hpat); [apply Hhandler |].
    rewrite handshake_unfold. now apply bind_post_raise.
  - intros sid tr1 Hhs Hpost.
    rewrite (call_tool_after_handshake env self name args uv tr sid tr1 Hpat Hhs).
    rewrite (try_except_raise _ _ _ _ _ (bind_post_raise _ _ _ _ _ Hpost)).
    apply Hhandler.
Qed.

Lemma call_tool_post_raises_witness :
  is_Exception Fixtures.timed_out = true
  /\ post (Sample.env_of [Raise Fixtures.timed_out]) []
          (init_request Sample.writable Sample.alice) = Raise Fixtures.timed_out
  /\ req_timeout (init_request Sample.writable Sample.alice) = 30
  /\ run (Sample.env_of [Raise Fixtures.timed_out]) Sample.writable
         Fixtures.get_issue Sample.alice_ctx [] =
     (Ok (error_payload
            (PStr "Request timeout after 120s - try increasing REQUEST_TIMEOUT in user settings")),
      [init_request Sample.writable Sample.alice])
  /\ fst (run (Fixtures.env_third_raises Sample.connection_refused)
              Sample.writable Fixtures.get_issue Sample.alice_ctx []) =
     Ok (error_payload (PStr "Connection refused")).
Proof.
  do 3 (split; [reflexivity |]). split.
  - exact (proj1 (call_tool_post_raises
                    (Sample.env_of [Raise Fixtures.timed_out]) Sample.writable
                    "jira_get_issue" Fixtures.get_issue_arguments Sample.alice []
                    Fixtures.timed_out eq_refl eq_refl)
                 eq_refl).
  - exact (f_equal fst
             (proj2 (call_tool_post_raises
                       (Fixtures.env_third_raises Sample.connection_refused)
                       Sample.writable
                       "jira_get_issue" Fixtures.get_issue_arguments Sample.alice
                       [] Sample.connection_refused eq_refl eq_refl)
                    (Some "s1") _ eq_refl eq_refl)).
Defined.

(** ** Failures of discovery *)

Lemma discover_after_resolver env self ctx uv tr :
  _get_user_valves env self ctx = Ok uv ->
  str_truthy (JIRA_PAT uv) = true ->
  discover_jira_tools env self ctx tr =
  try_except (discover_try env self uv) discover_except tr.
Proof.
  intros Huv Hpat. unfold discover_jira_tools.
  now rewrite (bind_lift_ok _ _ _ _ Huv), Hpat.
Qed.

(** X9.  Discovery after a successful handshake turns every failure of the
    tools/list request into a payload: a status other than 200 into
    "HTTP <status>: <body>"; a body with an "error" entry into that entry
    as it is (no message is extracted); an exception below [Exception], a
    timeout included, into "Discovery failed: <message>". *)
Theorem discovery_failures env self ctx uv tr sid tr1 :
  _get_user_valves env self ctx = Ok uv ->
  str_truthy (JIRA_PAT uv) = true ->
  _handshake env self uv tr = (Ok sid, tr1) ->
  let sent := (tr1 ++ [list_request self uv sid])%list in
  (forall r,
      post env tr1 (list_request self uv sid) = Ok r ->
      status_code r <> 200 ->
      discover_jira_tools env self ctx tr =
      (Ok (error_payload
             (PStr ("HTTP " ++ str_of_Z (status_code r) ++ ": " ++ text r))),
       sent))
  /\ (forall r body err,
         post env tr1 (list_request self uv sid) = Ok r ->
         status_code r = 200 ->
         json r = Ok (PDict body) ->
         dict_lookup "error" body = Some err ->
         discover_jira_tools env self ctx tr = (Ok (error_payload err), sent))
  /\ (forall e,
         post env tr1 (list_request self uv sid) = Raise e ->
         is_Exception e = true ->
         discover_jira_tools env self ctx tr =
         (Ok (error_payload (PStr ("Discovery failed: " ++ exn_msg e))), sent)).
Proof.
  intros Huv Hpat Hhs sent.
  rewrite (discover_after_resolver env self ctx uv tr Huv Hpat).
  unfold discover_try, try_except at 1 2 3.
  rewrite (bind_ok _ _ _ _ _ Hhs). fold (list_request self uv sid).
  split; [| split].
  - intros r Hpost Hstatus.
    now rewrite (bind_post_ok _ _ _ _ _ Hpost), (status_not_200 r Hstatus).
  - intros r body err Hpost Hstatus Hjson Herr.
    rewrite (bind_post_ok _ _ _ _ _ Hpost), Hstatus. cbn [Z.eqb Pos.eqb negb].
    rewrite (bind_lift_ok _ _ _ _ Hjson).
    cbn [contains_key getitem]. unfold dict_has. now rewrite Herr.
  - intros e Hpost Hexn.
    rewrite (bind_post_raise _ _ _ _ _ Hpost).
    unfold discover_except. now rewrite Hexn.
Qed.

Lemma discovery_failures_witness :
  _handshake Fixtures.env_third_500 Tools_init Sample.alice [] =
  (Ok (Some "s1"),
   [init_request Tools_init Sample.alice;
    notify_request Tools_init Sample.alice (Some "s1")])
  /\ fst (run Fixtures.env_third_500 Tools_init Discover Sample.alice_ctx []) =
     Ok (error_payload (PStr "HTTP 500: Internal Server Error"))
  /\ fst (run (Fixtures.env_third_error Fixtures.rpc_error) Tools_init Discover
              Sample.alice_ctx []) =
     Ok (error_payload Fixtures.rpc_error)
  /\ fst (run (Fixtures.env_third_raises Fixtures.timed_out) Tools_init Discover
              Sample.alice_ctx []) =
     Ok (error_payload
           (PStr "Discovery failed: Read timed out. (read timeout=30)")).
Proof.
  split; [reflexivity |]. split; [| split].
  - refine (f_equal fst
              (proj1 (discovery_failures
                        Fixtures.env_third_500 Tools_init Sample.alice_ctx
                        Sample.alice [] (Some "s1") _ eq_refl eq_refl eq_refl)
                     _ eq_refl _)).
    discriminate.
  - exact (f_equal fst
             (proj1 (proj2 (discovery_failures
                              (Fixtures.env_third_error Fixtures.rpc_error)
                              Tools_init Sample.alice_ctx Sample.alice []
                              (Some "s1") _ eq_refl eq_refl eq_refl))
                    _ _ _ eq_refl eq_refl eq_refl eq_refl)).
  - exact (f_equal fst
             (proj2 (proj2 (discovery_failures
                              (Fixtures.env_third_raises Fixtures.timed_out)
                              Tools_init Sample.alice_ctx Sample.alice []
                              (Some "s1") _ eq_refl eq_refl eq_refl))
                    _ eq_refl eq_refl)).
Defined.

(** ** What the process-wide settings do not touch *)

(** X10.  The read-only flag changes nothing for an operation, other than
    discovery, whose tool name is outside the Write-Tool Set: the read
    operations and the pass-through with such a name run the same with the
    flag set or cleared. *)
Theorem read_only_flag_leaves_reads env self op ctx flag tr :
  op <> Discover ->
  is_write_operation op = false ->
  run env (set_read_only self flag) op ctx tr = run env self op ctx tr.
Proof.
  intros Hop Hw. destruct self as [[url group enabled ro] defaults pv cn cv].
  destruct op; try (vm_compute in Hw; discriminate Hw); try reflexivity.
  - now contradiction Hop.
  - unfold is_write_operation in Hw. cbn [tool_name_of] in Hw.
    unfold run, call_mcp_tool, set_read_only. cbn [valves READ_ONLY_MODE].
    rewrite Hw, !andb_false_r. reflexivity.
Qed.

Lemma read_only_flag_leaves_reads_witness :
  is_write_operation Fixtures.get_issue = false
  /\ run Fixtures.env_third_500 (set_read_only Sample.writable true)
         Fixtures.get_issue Sample.alice_ctx [] =
     run Fixtures.env_third_500 Sample.writable Fixtures.get_issue
         Sample.alice_ctx [].
Proof.
  split; [reflexivity |].
  refine (read_only_flag_leaves_reads
            Fixtures.env_third_500 Sample.writable Fixtures.get_issue
            Sample.alice_ctx true [] _ eq_refl).
  discriminate.
Defined.

(** X11.  The allow-list ENABLED_TOOLS is used by discovery only: every
    other operation, the pass-through included, runs the same whatever the
    allow-list holds, so a tool outside the allow-list can still be
    invoked. *)
Theorem allow_list_does_not_restrict_invocation env self op ctx enabled tr :
  op <> Discover ->
  run env (set_enabled_tools self enabled) op ctx tr = run env self op ctx tr.
Proof.
  intros Hop. destruct self as [[url group enabled0 ro] defaults pv cn cv].
  destruct op; try reflexivity. now contradiction Hop.
Qed.

Lemma allow_list_does_not_restrict_invocation_witness :
  enabled_list (set_enabled_tools Sample.writable "jira_search") = ["jira_search"]
  /\ run (Sample.env_content [Sample.text_item "deleted"])
         (set_enabled_tools Sample.writable "jira_search")
         (CallMcpTool "jira_delete_issue" Fixtures.get_issue_arguments)
         Sample.alice_ctx [] =
     run (Sample.env_content [Sample.text_item "deleted"]) Sample.writable
         (CallMcpTool "jira_delete_issue" Fixtures.get_issue_arguments)
         Sample.alice_ctx [].
Proof.
  split; [reflexivity |].
  refine (allow_list_does_not_restrict_invocation
            (Sample.env_content [Sample.text_item "deleted"]) Sample.writable
            (CallMcpTool "jira_delete_issue" Fixtures.get_issue_arguments)
            Sample.alice_ctx "jira_search" [] _).
  discriminate.
Defined.

(** X12.  Past the read-only gate, the resolver and a successful handshake,
    the third request of every operation but discovery is the tools/call
    request naming the tool of the operation; the pass-through sends the
    caller's tool name with the decoded argument payload, unchanged. *)
Theorem tools_call_names_the_tool env self op ctx uv tr name sid tr1 :
  _get_user_valves env self ctx = Ok uv ->
  str_truthy (JIRA_PAT uv) = true ->
  denied self op = false ->
  arguments_parse env op = true ->
  tool_name_of op = Some name ->
  _handshake env self uv tr = (Ok sid, tr1) ->
  exists args out,
    run env self op ctx tr =
    (out, (tr1 ++ [call_request self uv sid name args])%list)
    /\ req_json (call_request self uv sid name args)
       = PDict [("jsonrpc", PStr "2.0"); ("method", PStr "tools/call");
                ("id", PInt 3);
                ("params", PDict [("name", PStr name); ("arguments", args)])]
    /\ forall tool raw, op = CallMcpTool tool raw ->
                        parse_arguments env raw = Ok args.
Proof.
  intros Huv Hpat Hd Hparse Hname Hhs.
  assert (Hcall : forall args,
             run env self op ctx tr = _call_tool env self name args uv tr ->
             (forall tool raw, op = CallMcpTool tool raw ->
                               parse_arguments env raw = Ok args) ->
             exists args out,
               run env self op ctx tr =
               (out, (tr1 ++ [call_request self uv sid name args])%list)
               /\ req_json (call_request self uv sid name args)
                  = PDict [("jsonrpc", PStr "2.0"); ("method", PStr "tools/call");
                           ("id", PInt 3);
                           ("params",
                            PDict [("name", PStr name); ("arguments", args)])]
               /\ forall tool raw, op = CallMcpTool tool raw ->
                                   parse_arguments env raw = Ok args).
  { intros args Hrun Hraw.
    destruct (call_tool_posts_call env self name args uv tr sid tr1 Hpat Hhs)
      as [out Hout].
    exists args, out. rewrite Hrun. repeat split; auto. }
  destruct (run_reaches_call_tool env self op ctx uv tr name Huv Hd Hparse Hname)
    as [args Hrun].
  destruct op; try (apply (Hcall args Hrun); intros tool raw H; discriminate H).
  cbn [tool_name_of] in Hname. injection Hname as ->.
  cbn [arguments_parse] in Hparse.
  destruct (parse_arguments env arguments) as [v | e] eqn:Hv;
    [| discriminate Hparse].
  apply (Hcall v).
  - unfold denied, is_write_operation in Hd. cbn [tool_name_of] in Hd.
    unfold run, call_mcp_tool.
    now rewrite Hd, (bind_lift_ok _ _ _ _ Huv), Hv.
  - intros tool raw H. now injection H as _ <-.
Qed.

Lemma tools_call_names_the_tool_witness :
  denied Sample.writable
         (CallMcpTool "jira_batch_get_changelogs" (PStr "{}")) = false
  /\ parse_arguments (Sample.env_content []) (PStr "{}") = Ok (PDict [])
  /\ exists out,
      run (Sample.env_content []) Sample.writable
          (CallMcpTool "jira_batch_get_changelogs" (PStr "{}"))
          Sample.alice_ctx [] =
      (out,
       [init_request Sample.writable Sample.alice;
        notify_request Sample.writable Sample.alice (Some "s1");
        call_request Sample.writable Sample.alice (Some "s1")
                     "jira_batch_get_changelogs" (PDict [])]).
Proof.
  do 2 (split; [reflexivity |]).
  destruct (tools_call_names_the_tool
              (Sample.env_content []) Sample.writable
              (CallMcpTool "jira_batch_get_changelogs" (PStr "{}"))
              Sample.alice_ctx Sample.alice [] "jira_batch_get_changelogs"
              (Some "s1") _ eq_refl eq_refl eq_refl eq_refl eq_refl eq_refl)
    as [args [out [Hrun [_ Hraw]]]].
  exists out.
  pose proof (Hraw _ _ eq_refl) as Hargs. cbn in Hargs.
  injection Hargs as <-. exact Hrun.
Defined.

(** ** The allow-list *)

(** X13.  The allow-list parsed from ENABLED_TOOLS never holds a blank
    entry: each entry is a comma-separated piece of the setting with its
    surrounding whitespace stripped, and pieces that strip to the empty
    string are dropped. *)
Theorem enabled_list_has_no_blank_entry self t :
  In t (enabled_list self) ->
  t <> EmptyString
  /\ exists piece,
      In piece (split "," (ENABLED_TOOLS (valves self))) /\ t = strip piece.
Proof.
  unfold enabled_list. intros H.
  apply in_map_iff in H as [piece [<- H]].
  apply filter_In in H as [Hin Htruthy].
  split; [| eauto].
  intros Hempty. rewrite Hempty in Htruthy. discriminate Htruthy.
Qed.

Lemma enabled_list_has_no_blank_entry_witness :
  enabled_list (set_enabled_tools Tools_init " jira_search ,, ,jira_get_issue")
  = ["jira_search"; "jira_get_issue"]
  /\ "jira_get_issue" <> EmptyString.
Proof.
  split; [reflexivity |].
  exact (proj1 (enabled_list_has_no_blank_entry
                  (set_enabled_tools Tools_init " jira_search ,, ,jira_get_issue")
                  "jira_get_issue" (or_intror (or_introl eq_refl)))).
Defined.

(** ** Contexts the resolver rejects *)

Lemma resolver_ok_iff env self ctx :
  is_ok (_get_user_valves env self ctx) = resolvable env ctx.
Proof.
  unfold resolvable, _get_user_valves.
  destruct (negb (user_truthy ctx)); cbn [orb]; [reflexivity |].
  destruct (user_get_valves ctx) as [[uv | v] | e]; cbn [rbind]; try reflexivity.
  destruct v; reflexivity.
Qed.

(** X14.  On a caller context the resolver rejects (a truthy value that is
    no mapping, or a "valves" mapping the constructor of [UserValves]
    rejects) every operation that is not denied by the read-only gate raises
    the resolver's exception before anything is posted; the pass-through
    does so before it decodes its argument payload. *)
Theorem rejected_context_raises env self op ctx tr :
  resolvable env ctx = false ->
  denied self op = false ->
  exists e,
    _get_user_valves env self ctx = Raise e
    /\ run env self op ctx tr = (Raise e, tr).
Proof.
  intros Hctx Hd. rewrite <- (resolver_ok_iff env self ctx) in Hctx.
  destruct (_get_user_valves env self ctx) as [uv | e] eqn:Huv;
    [discriminate Hctx |].
  exists e. split; [reflexivity |]. now apply run_resolver_raises.
Qed.

Lemma rejected_context_raises_witness :
  resolvable (Sample.env_of []) Sample.bad_timeout_ctx = false
  /\ denied Sample.writable (CallMcpTool "jira_delete_issue" (PStr "{oops")) = false
  /\ exists e,
      run (Sample.env_of []) Sample.writable
          (CallMcpTool "jira_delete_issue" (PStr "{oops"))
          Sample.bad_timeout_ctx [] = (Raise e, []).
Proof.
  do 2 (split; [reflexivity |]).
  destruct (rejected_context_raises
              (Sample.env_of []) Sample.writable
              (CallMcpTool "jira_delete_issue" (PStr "{oops"))
              Sample.bad_timeout_ctx [] eq_refl eq_refl) as [e [_ Hrun]].
  now exists e.
Defined.

(** ** Discovery and the gate agree *)

(** X15.  A tool that discovery retains is never denied by the read-only
    gate of the pass-through: called by its listed name, it reaches
    [_call_tool] with the decoded arguments. *)
Theorem discovered_tools_are_callable env self tool raw ctx uv args tr :
  retained self tool = true ->
  _get_user_valves env self ctx = Ok uv ->
  parse_arguments env raw = Ok args ->
  call_mcp_tool env self (tool_name tool) raw ctx tr =
  _call_tool env self (tool_name tool) args uv tr.
Proof.
  intros Hkeep Huv Hargs. unfold retained in Hkeep.
  apply andb_prop in Hkeep as [_ Hgate]. apply negb_true_iff in Hgate.
  unfold call_mcp_tool. now rewrite Hgate, (bind_lift_ok _ _ _ _ Huv), Hargs.
Qed.

Lemma discovered_tools_are_callable_witness :
  retained Tools_init Sample.search_tool = true
  /\ retained Tools_init Sample.delete_tool = false
  /\ call_mcp_tool (Sample.env_of []) Tools_init "jira_search" (PStr "{}")
                   Sample.alice_ctx [] =
     _call_tool (Sample.env_of []) Tools_init "jira_search" (PDict [])
                Sample.alice [].
Proof.
  do 2 (split; [reflexivity |]).
  exact (discovered_tools_are_callable
           (Sample.env_of []) Tools_init Sample.search_tool (PStr "{}")
           Sample.alice_ctx Sample.alice (PDict []) [] eq_refl eq_refl eq_refl).
Defined.

(** ** Exceptions outside [Exception] *)

(** X16.  An exception that does not derive from [Exception], raised by the
    initialize POST, is not turned into a payload: [_call_tool] and the
    guarded body of discovery raise it as it is. *)
Theorem non_exception_is_not_absorbed env self name args uv tr e :
  str_truthy (JIRA_PAT uv) = true ->
  post env tr (init_request self uv) = Raise e ->
  is_Exception e = false ->
  _call_tool env self name args uv tr
  = (Raise e, (tr ++ [init_request self uv])%list)
  /\ try_except (discover_try env self uv) discover_except tr
     = (Raise e, (tr ++ [init_request self uv])%list).
Proof.
  intros Hpat Hpost Hexn.
  assert (Hhs : _handshake env self uv tr
                = (Raise e, (tr ++ [init_request self uv])%list))
    by (rewrite handshake_unfold; now apply bind_post_raise).
  assert (Htimeout : is_Timeout e = false)
    by (destruct e as [[] msg]; try discriminate Hexn; reflexivity).
  split.
  - rewrite (call_tool_handshake_raises env self name args uv tr e _ Hpat Hhs).
    unfold _call_tool_except. now rewrite Htimeout, Hexn.
  - rewrite (discover_handshake_raises env self uv tr e _ Hhs).
    unfold discover_except. now rewrite Hexn.
Qed.

Lemma non_exception_is_not_absorbed_witness :
  is_Exception Fixtures.interrupted = false
  /\ run (Sample.env_of [Raise Fixtures.interrupted]) Sample.writable
         Fixtures.get_issue Sample.alice_ctx [] =
     (Raise Fixtures.interrupted, [init_request Sample.writable Sample.alice]).
Proof.
  split; [reflexivity |].
  exact (proj1 (non_exception_is_not_absorbed
                  (Sample.env_of [Raise Fixtures.interrupted]) Sample.writable
                  "jira_get_issue" Fixtures.get_issue_arguments Sample.alice []
                  Fixtures.interrupted eq_refl eq_refl eq_refl)).
Defined.

(** ** Discovery under the read-only flag *)

Lemma retained_read_only self tool :
  retained (set_read_only self true) tool
  = retained (set_read_only self false) tool && negb (_is_write_tool (tool_name tool)).
Proof.
  unfold retained, set_read_only, enabled_list. cbn [valves READ_ONLY_MODE ENABLED_TOOLS].
  cbn [andb negb]. now rewrite andb_true_r.
Qed.

(** X17.  Setting the read-only flag only hides tools from discovery: the
    tools listed with the flag set are among those listed with it cleared,
    and every tool that the flag hides is in the Write-Tool Set. *)
Theorem read_only_only_hides_write_tools self tools :
  forallb tool_ok tools = true ->
  exists hidden_view full_view,
    discover_tools (set_read_only self true)
                   (enabled_list (set_read_only self true)) tools []
    = Ok hidden_view
    /\ discover_tools (set_read_only self false)
                      (enabled_list (set_read_only self false)) tools []
       = Ok full_view
    /\ incl hidden_view full_view
    /\ forall entry,
        In entry full_view -> ~ In entry hidden_view ->
        exists tool,
          In tool tools /\ entry = reported tool
          /\ _is_write_tool (tool_name tool) = true.
Proof.
  intros Hok.
  rewrite (discover_tools_spec (set_read_only self true) tools Hok []),
          (discover_tools_spec (set_read_only self false) tools Hok []).
  cbn [app]. do 2 eexists. split; [reflexivity |]. split; [reflexivity |]. split.
  - intros entry Hin. apply in_map_iff in Hin as [tool [<- Hin]].
    apply filter_In in Hin as [Hin Hkeep]. apply in_map. apply filter_In.
    split; [exact Hin |].
    rewrite retained_read_only in Hkeep. now apply andb_prop in Hkeep as [-> _].
  - intros entry Hfull Hhidden.
    apply in_map_iff in Hfull as [tool [<- Hin]].
    apply filter_In in Hin as [Hin Hkeep].
    exists tool. split; [exact Hin |]. split; [reflexivity |].
    destruct (_is_write_tool (tool_name tool)) eqn:Hw; [reflexivity |].
    exfalso. apply Hhidden. apply in_map. apply filter_In.
    split; [exact Hin |].
    rewrite retained_read_only, Hkeep, Hw. reflexivity.
Qed.

Lemma read_only_only_hides_write_tools_witness :
  forallb tool_ok [Sample.search_tool; Sample.delete_tool; Sample.confluence_tool]
  = true
  /\ discover_tools (set_read_only Tools_init true)
                    (enabled_list (set_read_only Tools_init true))
                    [Sample.search_tool; Sample.delete_tool; Sample.confluence_tool]
                    []
     = Ok [reported Sample.search_tool]
  /\ exists hidden_view full_view,
      incl hidden_view full_view
      /\ discover_tools (set_read_only Tools_init false)
                        (enabled_list (set_read_only Tools_init false))
                        [Sample.search_tool; Sample.delete_tool;
                         Sample.confluence_tool] []
         = Ok full_view.
Proof.
  do 2 (split; [reflexivity |]).
  destruct (read_only_only_hides_write_tools
              Tools_init
              [Sample.search_tool; Sample.delete_tool; Sample.confluence_tool]
              eq_refl)
    as [hidden_view [full_view [_ [Hfull [Hincl _]]]]].
  exists hidden_view, full_view. now split.
Defined.

(** ** Bodies that are no JSON *)

(** X18.  A response to the third request with status 200 whose body does
    not decode as JSON is not returned as text: [_call_tool] returns the
    decoder's message as its error payload, discovery returns it prefixed
    with "Discovery failed: ". *)
Theorem undecodable_body_is_an_error env self uv tr sid tr1 e :
  str_truthy (JIRA_PAT uv) = true ->
  _handshake env self uv tr = (Ok sid, tr1) ->
  is_JSONDecodeError e = true ->
  (forall name args r,
      post env tr1 (call_request self uv sid name args) = Ok r ->
      status_code r = 200 ->
      json r = Raise e ->
      _call_tool env self name args uv tr =
      (Ok (error_payload (PStr (exn_msg e))),
       (tr1 ++ [call_request self uv sid name args])%list))
  /\ (forall r,
         post env tr1 (list_request self uv sid) = Ok r ->
         status_code r = 200 ->
         json r = Raise e ->
         try_except (discover_try env self uv) discover_except tr =
         (Ok (error_payload (PStr ("Discovery failed: " ++ exn_msg e))),
          (tr1 ++ [list_request self uv sid])%list)).
Proof.
  intros Hpat Hhs Hdecode.
  assert (Hclass : is_Timeout e = false /\ is_Exception e = true)
    by (destruct e as [[] msg]; try discriminate Hdecode; now split).
  destruct Hclass as [Htimeout Hexn].
  split.
  - intros name args r Hpost Hstatus Hjson.
    rewrite (call_tool_after_handshake env self name args uv tr sid tr1 Hpat Hhs).
    unfold try_except.
    rewrite (bind_post_ok _ _ _ _ _ Hpost), Hstatus. cbn [Z.eqb Pos.eqb negb].
    rewrite (bind_lift_raise _ _ _ _ Hjson).
    unfold _call_tool_except. now rewrite Htimeout, Hexn.
  - intros r Hpost Hstatus Hjson.
    unfold try_except, discover_try. rewrite (bind_ok _ _ _ _ _ Hhs).
    fold (list_request self uv sid).
    rewrite (bind_post_ok _ _ _ _ _ Hpost), Hstatus. cbn [Z.eqb Pos.eqb negb].
    rewrite (bind_lift_raise _ _ _ _ Hjson).
    unfold discover_except. now rewrite Hexn.
Qed.

Lemma undecodable_body_is_an_error_witness :
  _handshake Fixtures.env_third_html Sample.writable Sample.alice [] =
  (Ok (Some "s1"),
   [init_request Sample.writable Sample.alice;
    notify_request Sample.writable Sample.alice (Some "s1")])
  /\ is_JSONDecodeError Fixtures.not_json = true
  /\ fst (run Fixtures.env_third_html Sample.writable Fixtures.get_issue
              Sample.alice_ctx []) =
     Ok (error_payload (PStr "Expecting value: line 1 column 1 (char 0)")).
Proof.
  do 2 (split; [reflexivity |]).
  exact (f_equal fst
           (proj1 (undecodable_body_is_an_error
                     Fixtures.env_third_html Sample.writable Sample.alice []
                     (Some "s1") _ Fixtures.not_json eq_refl eq_refl eq_refl)
                  "jira_get_issue" Fixtures.get_issue_arguments _
                  eq_refl eq_refl eq_refl)).
Defined.
